(** * BloodOn: the donor matching and notification pipeline of [app.py]

    A shallow embedding of the core of the Flask backend: the blood
    compatibility table, the location heuristic, the donor matcher and the
    two notification loops of the request endpoint, followed by the
    properties of the design document that concern them.

    Conventions of the embedding.
    - A Python [str] is a [string]; its characters are the code points
      below 256, on which [str.lower] and [str.strip] are given by the
      Unicode tables (Latin-1 block).
    - A Python call either returns a value or raises: [py A].
    - The outside world (database driver, SMTP server, process
      environment) is a record of answers, [World]; the code reads it and
      threads the tables it writes ([Db]) explicitly. *)

From Stdlib Require Import Ascii String NArith ZArith.
From stdpp Require Import base option list strings gmap.

Local Open Scope string_scope.
Local Open Scope list_scope.

(** ** Python strings *)

Module Str.

(** [str.lower], one character: A-Z and the Latin-1 capitals
    (U+00C0..U+00DE without the multiplication sign U+00D7) move up
    by 32; nothing else has a lowercase image in the block. *)
Definition char_lower (c : ascii) : ascii :=
  let n := N_of_ascii c in
  if ((65 <=? n) && (n <=? 90)
      || (192 <=? n) && (n <=? 222) && negb (n =? 215))%N
  then ascii_of_N (n + 32) else c.

(** [str.isspace], one character: TAB..CR, FS..US, SPACE, NEL, NBSP. *)
Definition char_isspace (c : ascii) : bool :=
  let n := N_of_ascii c in
  ((9 <=? n) && (n <=? 13) || (28 <=? n) && (n <=? 32)
   || (n =? 133) || (n =? 160))%N.

Fixpoint lower (s : string) : string :=
  match s with
  | EmptyString => EmptyString
  | String c s' => String (char_lower c) (lower s')
  end.

Fixpoint lstrip (s : string) : string :=
  match s with
  | EmptyString => EmptyString
  | String c s' => if char_isspace c then lstrip s' else s
  end.

Fixpoint rstrip (s : string) : string :=
  match s with
  | EmptyString => EmptyString
  | String c s' =>
      match rstrip s' with
      | EmptyString => if char_isspace c then EmptyString else String c EmptyString
      | r => String c r
      end
  end.

(** [s.strip()] with no argument. *)
Definition strip (s : string) : string := rstrip (lstrip s).

(** [y.startswith(x)]. *)
Fixpoint startswith (y x : string) {struct x} : bool :=
  match x, y with
  | EmptyString, _ => true
  | String _ _, EmptyString => false
  | String a x', String b y' => Ascii.eqb a b && startswith y' x'
  end.

(** [x in y] on strings: [x] occurs in [y] as a contiguous block. *)
Fixpoint contains (y x : string) : bool :=
  startswith y x ||
  match y with
  | EmptyString => false
  | String _ y' => contains y' x
  end.

End Str.

(** ** Proximity of two locations *)

(** [calculate_location_distance(loc1, loc2)]: 0 for the same place, 1 when
    one cleaned name contains the other, 2 otherwise. *)
Definition calculate_location_distance (loc1 loc2 : string) : Z :=
  let loc1_clean := Str.strip (Str.lower loc1) in
  let loc2_clean := Str.strip (Str.lower loc2) in
  if String.eqb loc1_clean loc2_clean then 0%Z
  else if Str.contains loc2_clean loc1_clean || Str.contains loc1_clean loc2_clean
       then 1%Z
       else 2%Z.

(** ** Python calls: a value or an exception *)

(** The exceptions the handlers of [app.py] tell apart:
    [sqlite3.OperationalError] and every other [Exception]. *)
Inductive exn : Type :=
| OperationalError (msg : string)
| OtherException (msg : string).

Inductive py (A : Type) : Type :=
| Return (a : A)
| Raise (e : exn).
Arguments Return {A} a.
Arguments Raise {A} e.

#[global] Instance py_ret : MRet py := fun A a => Return a.

#[global] Instance py_bind : MBind py := fun A B k m =>
  match m with
  | Return a => k a
  | Raise e => Raise e
  end.

(** [try: body / except Exception as e: handler e]. *)
Definition py_try {A : Type} (body : py A) (handler : exn -> py A) : py A :=
  match body with
  | Return a => Return a
  | Raise e => handler e
  end.

(** ** Data model *)

(** A row of [donors], as [_row_to_dict] hands it over. *)
Record Donor : Type := mkDonor {
  donor_id : Z;
  donor_name : string;
  donor_blood_group : string;
  donor_email : string;
  donor_phone : string;
  donor_location : string
}.

(** A row of [matches] ([id] and [notified_at] are filled by the store). *)
Record Match : Type := mkMatch {
  match_request_id : Z;
  match_donor_id : Z
}.

#[global] Instance Donor_eq_dec : EqDecision Donor.
Proof. solve_decision. Defined.
#[global] Instance Match_eq_dec : EqDecision Match.
Proof. solve_decision. Defined.

(** ** Blood compatibility matrix *)

Definition BLOOD_COMPATIBILITY : gmap string (list string) :=
  list_to_map [
    ("A+",  ["A+"; "A-"; "O+"; "O-"]);
    ("A-",  ["A-"; "O-"]);
    ("B+",  ["B+"; "B-"; "O+"; "O-"]);
    ("B-",  ["B-"; "O-"]);
    ("AB+", ["A+"; "A-"; "B+"; "B-"; "AB+"; "AB-"; "O+"; "O-"]);
    ("AB-", ["A-"; "B-"; "AB-"; "O-"]);
    ("O+",  ["O+"; "O-"]);
    ("O-",  ["O-"])
  ].

(** The 8 blood types of the data model. *)
Definition blood_types : list string :=
  ["O-"; "O+"; "A-"; "A+"; "B-"; "B+"; "AB-"; "AB+"].

(** [d.get(key, default)]. *)
Definition dict_get {V : Type} (d : gmap string V) (key : string) (dflt : V) : V :=
  default dflt (d !! key).

(** Truth value of a list or of a string: empty is false. *)
Definition list_truthy {A : Type} (l : list A) : bool :=
  match l with [] => false | _ :: _ => true end.
Definition str_truthy (s : string) : bool :=
  match s with EmptyString => false | String _ _ => true end.

(** ** The outside world *)

Inductive db_type : Type := mysql | sqlite.

(** What the process sees when it runs one request: its configuration, the
    answers of the database driver and of the SMTP server, and the tables
    as they stand. Each field is the outcome of one call site. *)
Record World : Type := mkWorld {
  (* module level configuration *)
  MYSQL_AVAILABLE : bool;
  USE_SQLITE : bool;
  EMAIL_USER : string;                      (* EMAIL_CONFIG['email'] *)
  EMAIL_PASSWORD : string;                  (* EMAIL_CONFIG['password'] *)
  (* connecting, at the two call sites of one request *)
  mysql_connect_request : option exn;       (* in submit_request *)
  sqlite_connect_request : option exn;
  mysql_connect_donors : option exn;        (* in find_compatible_donors *)
  sqlite_connect_donors : option exn;
  (* statements *)
  select_donors_error : option exn;         (* SELECT ... FROM donors *)
  insert_request_error : option exn;        (* INSERT INTO blood_requests *)
  lastrowid : Z;
  commit_request_error : option exn;
  insert_match_error : Z -> Z -> option exn; (* INSERT INTO matches *)
  commit_matches_error : option exn;
  (* the SMTP session opened for one recipient *)
  smtp_error : string -> option exn;
  (* tables *)
  donors : list Donor;
  matches : list Match
}.

(** [get_db_connection()]: MySQL when available and asked for, SQLite by
    default or as the fallback, [None] when SQLite fails too. *)
Definition get_db_connection (available use_sqlite : bool)
    (mysql_connect sqlite_connect : option exn) : option db_type :=
  let try_sqlite :=
    match sqlite_connect with
    | None => Some sqlite
    | Some _ => None
    end in
  if available && negb use_sqlite then
    match mysql_connect with
    | None => Some mysql
    | Some _ => try_sqlite
    end
  else try_sqlite.

(** ** Donor matcher *)

(** [cursor.execute(query, compatible_groups); cursor.fetchall()] with
    [WHERE blood_group IN (...)]: rows in table order, blood groups
    compared character by character as SQLite, the default backend, does. *)
Definition select_donors (w : World) (compatible_groups : list string) : py (list Donor) :=
  match select_donors_error w with
  | Some e => Raise e
  | None =>
      Return (filter (fun d => donor_blood_group d ∈ compatible_groups) (donors w))
  end.

(** The loop that separates the fetched donors by proximity. *)
Fixpoint separate (hospital_location : string) (all_donors : list Donor)
    (nearby_donors far_donors : list Donor) : list Donor * list Donor :=
  match all_donors with
  | [] => (nearby_donors, far_donors)
  | donor :: rest =>
      let distance := calculate_location_distance (donor_location donor) hospital_location in
      if (distance <=? 1)%Z
      then separate hospital_location rest (nearby_donors ++ [donor]) far_donors
      else separate hospital_location rest nearby_donors (far_donors ++ [donor])
  end.

Definition find_compatible_donors (w : World)
    (required_blood_group hospital_location : string) : py (list Donor * list Donor) :=
  let db_result :=
    get_db_connection (MYSQL_AVAILABLE w) (USE_SQLITE w)
                      (mysql_connect_donors w) (sqlite_connect_donors w) in
  match db_result with
  | None => Return ([], [])
  | Some _ =>
      py_try
        (let compatible_groups := dict_get BLOOD_COMPATIBILITY required_blood_group [] in
         if negb (list_truthy compatible_groups) then Return ([], [])
         else
           all_donors ← select_donors w compatible_groups;
           Return (separate hospital_location all_donors [] []))
        (fun e => Return ([], []))
  end.

(** ** Notification channels *)

(** [send_email_notification]: [False] at once when the sender is not
    configured; otherwise one SMTP session, [True] when it completes and
    [False] on a timeout or on any other exception. *)
Definition send_email_notification (w : World) (donor_email donor_name : string) : bool :=
  if negb (str_truthy (EMAIL_USER w)) || negb (str_truthy (EMAIL_PASSWORD w)) then false
  else match smtp_error w donor_email with
       | None => true
       | Some _ => false
       end.

(** [send_whatsapp_notification]: every path returns [True]. *)
Definition send_whatsapp_notification (w : World) (donor_phone donor_name : string) : bool :=
  true.

(** ** The request endpoint *)

(** What one run of the endpoint does to the outside, in order. *)
Inductive event : Type :=
| EmailCall (donor_email donor_name : string)
| WhatsAppCall (donor_phone donor_name : string)
| MatchInsert (request_id donor_id : Z).

#[global] Instance event_eq_dec : EqDecision event.
Proof. solve_decision. Defined.

(** The locals of [submit_request] that change while it runs, the rows
    written in the open transaction, and the calls made so far. *)
Record Frame : Type := mkFrame {
  notified_count : Z;
  pending : list Match;
  trace : list event
}.

Definition Run (A : Type) : Type := Frame -> py A * Frame.

#[global] Instance Run_ret : MRet Run := fun A a s => (Return a, s).

#[global] Instance Run_bind : MBind Run := fun A B k m s =>
  match m s with
  | (Return a, s') => k a s'
  | (Raise e, s') => (Raise e, s')
  end.

Definition lift {A : Type} (m : py A) : Run A := fun s => (m, s).

(** [try: body / except Exception as e: handler e]; what the body did
    before it raised stays done. *)
Definition run_try {A : Type} (body : Run A) (handler : exn -> Run A) : Run A :=
  fun s =>
    match body s with
    | (Return a, s') => (Return a, s')
    | (Raise e, s') => handler e s'
    end.

(** [for x in l: body x]. *)
Fixpoint for_each {X : Type} (l : list X) (body : X -> Run unit) : Run unit :=
  match l with
  | [] => mret tt
  | x :: l' => _ ← body x; for_each l' body
  end.

Definition emit (e : event) : Run unit := fun s =>
  (Return tt, mkFrame (notified_count s) (pending s) (trace s ++ [e])).

(** [cursor.execute("INSERT INTO matches (request_id, donor_id) ...")]. *)
Definition execute_insert_match (w : World) (request_id donor_id : Z) : Run unit := fun s =>
  let s' := mkFrame (notified_count s) (pending s) (trace s ++ [MatchInsert request_id donor_id]) in
  match insert_match_error w request_id donor_id with
  | Some e => (Raise e, s')
  | None =>
      (Return tt,
       mkFrame (notified_count s') (pending s' ++ [mkMatch request_id donor_id]) (trace s'))
  end.

(** [notified_count += 1]. *)
Definition incr_notified_count : Run unit := fun s =>
  (Return tt, mkFrame (notified_count s + 1) (pending s) (trace s)).

Definition get_notified_count : Run Z := fun s => (Return (notified_count s), s).

(** Body of the loop over [nearby_donors]. *)
Definition notify_nearby (w : World) (request_id : Z) (donor : Donor) : Run unit :=
  _ ← emit (EmailCall (donor_email donor) (donor_name donor));
  let email_sent := send_email_notification w (donor_email donor) (donor_name donor) in
  _ ← emit (WhatsAppCall (donor_phone donor) (donor_name donor));
  let _ := send_whatsapp_notification w (donor_phone donor) (donor_name donor) in
  if email_sent then
    _ ← execute_insert_match w request_id (donor_id donor);
    incr_notified_count
  else mret tt.

(** Body of the loop over [far_donors[:5]]. *)
Definition notify_far (w : World) (request_id : Z) (donor : Donor) : Run unit :=
  _ ← emit (EmailCall (donor_email donor) (donor_name donor));
  let _ := send_email_notification w (donor_email donor) (donor_name donor) in
  _ ← emit (WhatsAppCall (donor_phone donor) (donor_name donor));
  let _ := send_whatsapp_notification w (donor_phone donor) (donor_name donor) in
  execute_insert_match w request_id (donor_id donor).

(** The two notification loops, each inside its own [try], each body
    inside a [try] whose handler is [continue]. *)
Definition notify_all (w : World) (request_id : Z)
    (nearby_donors far_donors : list Donor) : Run unit :=
  _ ← run_try
        (for_each nearby_donors (fun donor =>
           run_try (notify_nearby w request_id donor) (fun _ => mret tt)))
        (fun _ => mret tt);
  run_try
    (for_each (take 5 far_donors) (fun donor =>
       run_try (notify_far w request_id donor) (fun _ => mret tt)))
    (fun _ => mret tt).

Definition required_fields : list string :=
  ["hospital_name"; "hospital_email"; "hospital_phone";
   "hospital_location"; "required_blood_group"].

(** [d[key]]. *)
Definition dict_item {V : Type} (d : gmap string V) (key : string) : py V :=
  match d !! key with
  | Some v => Return v
  | None => Raise (OtherException key)
  end.

(** A statement or a commit that the driver may refuse. *)
Definition execute (err : option exn) : py unit :=
  match err with
  | None => Return tt
  | Some e => Raise e
  end.

(** The JSON answer with its status code. [Created] is the 201 answer:
    [notified] is the count quoted in its message, the other three are its
    [request_id], [nearby_count] and [far_count] fields. *)
Inductive response : Type :=
| Created (notified : Z) (request_id : Z) (nearby_count far_count : nat)
| Failed (status : Z) (message : string).

(** The endpoint's answer, the [matches] table afterwards and the calls made. *)
Record Outcome : Type := mkOutcome {
  answer : response;
  matches_after : list Match;
  calls : list event
}.

(** The [try] block of [submit_request]. *)
Definition submit_request_body (w : World) (data : gmap string string) : Run response :=
  _ ← lift (execute (insert_request_error w));
  let request_id := lastrowid w in
  _ ← lift (execute (commit_request_error w));
  required_blood_group ← lift (dict_item data "required_blood_group");
  hospital_location ← lift (dict_item data "hospital_location");
  found ← lift (find_compatible_donors w required_blood_group hospital_location);
  let '(nearby_donors, far_donors) := found in
  _ ← notify_all w request_id nearby_donors far_donors;
  _ ← lift (execute (commit_matches_error w));
  notified ← get_notified_count;
  mret (Created notified request_id (length nearby_donors) (length far_donors)).

Definition submit_request (w : World) (data : gmap string string) : Outcome :=
  if negb (forallb (fun field => bool_decide (is_Some (data !! field))) required_fields)
  then mkOutcome (Failed 400 "Missing required fields") (matches w) []
  else
    match get_db_connection (MYSQL_AVAILABLE w) (USE_SQLITE w)
                            (mysql_connect_request w) (sqlite_connect_request w) with
    | None => mkOutcome (Failed 500 "Database connection failed") (matches w) []
    | Some _ =>
        match submit_request_body w data (mkFrame 0 [] []) with
        | (Return r, s) => mkOutcome r (matches w ++ pending s) (trace s)
        | (Raise (OperationalError msg), s) =>
            if Str.contains (Str.lower msg) "locked"
            then mkOutcome (Failed 503 "Database is busy. Please try again in a moment.")
                           (matches w) (trace s)
            else mkOutcome (Failed 500 ("Database error: " +:+ msg)) (matches w) (trace s)
        | (Raise (OtherException msg), s) =>
            mkOutcome (Failed 500 msg) (matches w) (trace s)
        end
    end.

(** ** Vocabulary of the properties *)

(** The design document's normal form of a location: trim whitespace,
    then fold case. *)
Definition normalize (s : string) : string := Str.lower (Str.strip s).

(** [x] is a substring of [y]. *)
Definition is_substring (x y : string) : Prop :=
  exists p q : string, y = p +:+ x +:+ q.

(** The three proximity classes and the code returned for each. *)
Inductive proximity : Type := SAME | NEARBY | DISTANT.

Definition proximity_code (t : proximity) : Z :=
  match t with
  | SAME => 0
  | NEARBY => 1
  | DISTANT => 2
  end.

(** The design document's classification of two locations. *)
Definition classifies (a b : string) (t : proximity) : Prop :=
  match t with
  | SAME => normalize a = normalize b
  | NEARBY =>
      normalize a <> normalize b
      /\ (is_substring (normalize a) (normalize b)
          \/ is_substring (normalize b) (normalize a))
  | DISTANT =>
      normalize a <> normalize b
      /\ ~ (is_substring (normalize a) (normalize b)
            \/ is_substring (normalize b) (normalize a))
  end.

(** The compatible donor types of a blood group, as the matcher resolves them. *)
Definition compatible_groups_of (required_blood_group : string) : list string :=
  dict_get BLOOD_COMPATIBILITY required_blood_group [].

(** The donors the matcher fetches: the rows of a compatible blood group,
    in table order; none when the store cannot be reached or queried. *)
Definition fetched (w : World) (required_blood_group : string) : list Donor :=
  match get_db_connection (MYSQL_AVAILABLE w) (USE_SQLITE w)
                          (mysql_connect_donors w) (sqlite_connect_donors w),
        select_donors_error w with
  | Some _, None =>
      filter (fun d => donor_blood_group d ∈ compatible_groups_of required_blood_group)
             (donors w)
  | _, _ => []
  end.

(** The near tier test of the matcher's loop. *)
Definition is_near (hospital_location : string) (d : Donor) : bool :=
  (calculate_location_distance (donor_location d) hospital_location <=? 1)%Z.

(** The request was stored: fields present, connection obtained, row
    inserted and committed. *)
Definition persisted (w : World) (data : gmap string string) : Prop :=
  forallb (fun field => bool_decide (is_Some (data !! field))) required_fields = true
  /\ is_Some (get_db_connection (MYSQL_AVAILABLE w) (USE_SQLITE w)
                                (mysql_connect_request w) (sqlite_connect_request w))
  /\ insert_request_error w = None
  /\ commit_request_error w = None.

(** The recipients of the e-mail calls of a trace, in order. *)
Fixpoint email_calls (t : list event) : list (string * string) :=
  match t with
  | [] => []
  | EmailCall a n :: t' => (a, n) :: email_calls t'
  | _ :: t' => email_calls t'
  end.

Fixpoint whatsapp_calls (t : list event) : list (string * string) :=
  match t with
  | [] => []
  | WhatsAppCall p n :: t' => (p, n) :: whatsapp_calls t'
  | _ :: t' => whatsapp_calls t'
  end.

Fixpoint match_inserts (t : list event) : list Match :=
  match t with
  | [] => []
  | MatchInsert r d :: t' => mkMatch r d :: match_inserts t'
  | _ :: t' => match_inserts t'
  end.

(** How often an address, or a phone number, was called in a trace. *)
Definition email_attempts (addr : string) (t : list event) : nat :=
  length (filter (fun c => c.1 = addr) (email_calls t)).

Definition whatsapp_attempts (phone : string) (t : list event) : nat :=
  length (filter (fun c => c.1 = phone) (whatsapp_calls t)).

(** The rows a run added to [matches]. *)
Definition new_matches (w : World) (o : Outcome) : list Match :=
  drop (length (matches w)) (matches_after o).

Definition email_ok (w : World) (d : Donor) : bool :=
  send_email_notification w (donor_email d) (donor_name d).

Definition match_row (request_id : Z) (d : Donor) : Match :=
  mkMatch request_id (donor_id d).

(** The store accepts the match row of a donor. *)
Definition insert_ok (w : World) (request_id : Z) (d : Donor) : bool :=
  match insert_match_error w request_id (donor_id d) with
  | None => true
  | Some _ => false
  end.

(** A near donor ends up recorded: mail confirmed and row accepted. *)
Definition near_recorded (w : World) (request_id : Z) (d : Donor) : bool :=
  email_ok w d && insert_ok w request_id d.

(** The calls one pass of each loop body makes. *)
Definition near_events (w : World) (request_id : Z) (d : Donor) : list event :=
  [EmailCall (donor_email d) (donor_name d); WhatsAppCall (donor_phone d) (donor_name d)]
  ++ (if email_ok w d then [MatchInsert request_id (donor_id d)] else []).

Definition far_events (request_id : Z) (d : Donor) : list event :=
  [EmailCall (donor_email d) (donor_name d); WhatsAppCall (donor_phone d) (donor_name d);
   MatchInsert request_id (donor_id d)].

(** The calls and the rows of the two loops together. *)
Definition run_events (w : World) (request_id : Z) (near far : list Donor) : list event :=
  concat (near_events w request_id <$> near)
  ++ concat (far_events request_id <$> take 5 far).

Definition run_rows (w : World) (request_id : Z) (near far : list Donor) : list Match :=
  (match_row request_id <$> filter (fun d => near_recorded w request_id d) near)
  ++ (match_row request_id <$> filter (fun d => insert_ok w request_id d) (take 5 far)).

(** The pair a donor is addressed by on each channel. *)
Definition email_target (d : Donor) : string * string := (donor_email d, donor_name d).
Definition whatsapp_target (d : Donor) : string * string := (donor_phone d, donor_name d).

(** ** A sample world *)

Definition sample_donors : list Donor := [
  mkDonor 1 "Asha"   "O-"  "asha@example.org"   "9000000001" "Mumbai";
  mkDonor 2 "Ravi"   "A+"  "ravi@example.org"   "9000000002" "Mumbai Central";
  mkDonor 3 "Kiran"  "B+"  "kiran@example.org"  "9000000003" "Mumbai";
  mkDonor 4 "Meera"  "O+"  "meera@example.org"  "9000000004" "Delhi";
  mkDonor 5 "Sunil"  "A-"  "sunil@example.org"  "9000000005" "Pune";
  mkDonor 6 "Divya"  "A+"  "divya@example.org"  "9000000006" "  ";
  mkDonor 7 "Farah"  "O-"  "farah@example.org"  "9000000007" "Chennai";
  mkDonor 8 "Gopal"  "O+"  "gopal@example.org"  "9000000008" "Kochi";
  mkDonor 9 "Hema"   "A-"  "hema@example.org"   "9000000009" "Jaipur";
  mkDonor 10 "Imran" "A+"  "imran@example.org"  "9000000010" "Nagpur";
  mkDonor 11 "Jaya"  "O-"  "jaya@example.org"   "9000000011" "Surat"
].

(** Everything works, except that Ravi's mail server refuses the session. *)
Definition sample_world : World := {|
  MYSQL_AVAILABLE := false;
  USE_SQLITE := true;
  EMAIL_USER := "alerts@example.org";
  EMAIL_PASSWORD := "secret";
  mysql_connect_request := None;
  sqlite_connect_request := None;
  mysql_connect_donors := None;
  sqlite_connect_donors := None;
  select_donors_error := None;
  insert_request_error := None;
  lastrowid := 42;
  commit_request_error := None;
  insert_match_error := fun _ _ => None;
  commit_matches_error := None;
  smtp_error := fun addr =>
    if String.eqb addr "ravi@example.org" then Some (OtherException "timed out") else None;
  donors := sample_donors;
  matches := [mkMatch 41 1]
|}.

(** The same world with the donor store out of reach of the matcher. *)
Definition sample_world_down : World := {|
  MYSQL_AVAILABLE := false;
  USE_SQLITE := true;
  EMAIL_USER := "alerts@example.org";
  EMAIL_PASSWORD := "secret";
  mysql_connect_request := None;
  sqlite_connect_request := None;
  mysql_connect_donors := None;
  sqlite_connect_donors := Some (OperationalError "unable to open database file");
  select_donors_error := None;
  insert_request_error := None;
  lastrowid := 42;
  commit_request_error := None;
  insert_match_error := fun _ _ => None;
  commit_matches_error := None;
  smtp_error := fun _ => None;
  donors := sample_donors;
  matches := []
|}.

(** A reachable store that holds no donor. *)
Definition sample_world_empty : World := {|
  MYSQL_AVAILABLE := false;
  USE_SQLITE := true;
  EMAIL_USER := "alerts@example.org";
  EMAIL_PASSWORD := "secret";
  mysql_connect_request := None;
  sqlite_connect_request := None;
  mysql_connect_donors := None;
  sqlite_connect_donors := None;
  select_donors_error := None;
  insert_request_error := None;
  lastrowid := 42;
  commit_request_error := None;
  insert_match_error := fun _ _ => None;
  commit_matches_error := None;
  smtp_error := fun _ => None;
  donors := [];
  matches := []
|}.

(** The sample world with a store that refuses the match row of donor 1. *)
Definition sample_world_busy : World := {|
  MYSQL_AVAILABLE := false;
  USE_SQLITE := true;
  EMAIL_USER := "alerts@example.org";
  EMAIL_PASSWORD := "secret";
  mysql_connect_request := None;
  sqlite_connect_request := None;
  mysql_connect_donors := None;
  sqlite_connect_donors := None;
  select_donors_error := None;
  insert_request_error := None;
  lastrowid := 42;
  commit_request_error := None;
  insert_match_error := fun _ did =>
    if (did =? 1)%Z then Some (OperationalError "database is locked") else None;
  commit_matches_error := None;
  smtp_error := fun _ => None;
  donors := sample_donors;
  matches := []
|}.

Definition sample_data : gmap string string :=
  list_to_map [
    ("hospital_name", "City Hospital");
    ("hospital_email", "desk@cityhospital.example");
    ("hospital_phone", "0220000000");
    ("hospital_location", "Mumbai");
    ("required_blood_group", "A+")
  ].

(** ** The SMTP session of [send_email_notification], step by step *)

(** The calls made on the server object inside the [try] block. *)
Inductive smtp_step : Type :=
| SmtpConnect                     (* smtplib.SMTP(server, port, timeout=10) *)
| SmtpStartTls                    (* server.starttls() *)
| SmtpLogin                       (* server.login(email, password) *)
| SmtpSend (recipient : string)   (* server.send_message(msg) *)
| SmtpQuit.                       (* server.quit() *)

#[global] Instance smtp_step_eq_dec : EqDecision smtp_step.
Proof. solve_decision. Defined.

(** How the mail server answers each of them. *)
Record SmtpServer : Type := mkSmtpServer {
  connect_error : option exn;
  starttls_error : option exn;
  login_error : option exn;
  send_error : option exn;
  quit_error : option exn
}.

(** Runs the steps in order until one raises; returns the outcome and the
    steps that were tried. *)
Fixpoint run_steps (steps : list (smtp_step * option exn)) : py unit * list smtp_step :=
  match steps with
  | [] => (Return tt, [])
  | (a, Some e) :: _ => (Raise e, [a])
  | (a, None) :: rest =>
      let '(r, tried) := run_steps rest in (r, a :: tried)
  end.

Definition smtp_script (srv : SmtpServer) (donor_email : string)
    : list (smtp_step * option exn) :=
  [(SmtpConnect, connect_error srv);
   (SmtpStartTls, starttls_error srv);
   (SmtpLogin, login_error srv);
   (SmtpSend donor_email, send_error srv);
   (SmtpQuit, quit_error srv)].

(** [send_email_notification] with the session spelled out: the answer and
    the steps tried on the server. *)
Definition send_email_session (user password : string) (srv : SmtpServer)
    (donor_email donor_name : string) : bool * list smtp_step :=
  if negb (str_truthy user) || negb (str_truthy password) then (false, [])
  else
    match run_steps (smtp_script srv donor_email) with
    | (Return _, tried) => (true, tried)
    | (Raise _, tried) => (false, tried)
    end.

(** The exception a session ends with, if any. *)
Definition first_error (srv : SmtpServer) : option exn :=
  match connect_error srv with
  | Some e => Some e
  | None =>
  match starttls_error srv with
  | Some e => Some e
  | None =>
  match login_error srv with
  | Some e => Some e
  | None =>
  match send_error srv with
  | Some e => Some e
  | None => quit_error srv
  end end end end.

(** The server accepted the message for the recipient. *)
Definition message_accepted (srv : SmtpServer) : Prop :=
  connect_error srv = None /\ starttls_error srv = None
  /\ login_error srv = None /\ send_error srv = None.

(** ** Donor registration *)

Definition donor_fields : list string :=
  ["name"; "blood_group"; "email"; "phone"; "location"].

(** [str(e)]. *)
Definition exn_message (e : exn) : string :=
  match e with
  | OperationalError msg => msg
  | OtherException msg => msg
  end.

(** [INSERT INTO donors (name, blood_group, email, phone, location)] under
    the schema [init_database] creates: [email] and [phone] are UNIQUE and
    the row gets the next rowid. The driver may also fail on its own. *)
Definition insert_donor (table : list Donor) (driver_error : option exn) (new_id : Z)
    (name blood_group email phone location : string) : py (Z * list Donor) :=
  match driver_error with
  | Some e => Raise e
  | None =>
      if bool_decide (email ∈ donor_email <$> table)
      then Raise (OtherException "UNIQUE constraint failed: donors.email")
      else if bool_decide (phone ∈ donor_phone <$> table)
      then Raise (OtherException "UNIQUE constraint failed: donors.phone")
      else Return (new_id,
                   table ++ [mkDonor new_id name blood_group email phone location])
  end.

(** The answer of [/api/register-donor]: 201 with the new id, or an error
    status with its message. *)
Inductive register_response : Type :=
| Registered (donor_id : Z)
| Refused (status : Z) (message : string).

(** The [try] block of [register_donor]. *)
Definition register_donor_body (driver_error commit_error : option exn) (new_id : Z)
    (table : list Donor) (data : gmap string string) : py (Z * list Donor) :=
  name ← dict_item data "name";
  blood_group ← dict_item data "blood_group";
  email ← dict_item data "email";
  phone ← dict_item data "phone";
  location ← dict_item data "location";
  inserted ← insert_donor table driver_error new_id name blood_group email phone location;
  _ ← execute commit_error;
  Return inserted.

(** [register_donor()]: the answer and the [donors] table afterwards. *)
Definition register_donor (db_result : option db_type)
    (driver_error commit_error : option exn) (new_id : Z)
    (table : list Donor) (data : gmap string string)
    : register_response * list Donor :=
  if negb (forallb (fun field => bool_decide (is_Some (data !! field))) donor_fields)
  then (Refused 400 "Missing required fields", table)
  else
    match db_result with
    | None => (Refused 500 "Database connection failed", table)
    | Some _ =>
        match register_donor_body driver_error commit_error new_id table data with
        | Return (donor_id, table') => (Registered donor_id, table')
        | Raise e =>
            let error_msg := Str.lower (exn_message e) in
            if Str.contains error_msg "unique" || Str.contains error_msg "constraint"
            then (Refused 400 "Email or phone already registered", table)
            else (Refused 500 (exn_message e), table)
        end
    end.

(** The world seen with another [donors] table. *)
Definition with_donors (w : World) (table : list Donor) : World := {|
  MYSQL_AVAILABLE := MYSQL_AVAILABLE w;
  USE_SQLITE := USE_SQLITE w;
  EMAIL_USER := EMAIL_USER w;
  EMAIL_PASSWORD := EMAIL_PASSWORD w;
  mysql_connect_request := mysql_connect_request w;
  sqlite_connect_request := sqlite_connect_request w;
  mysql_connect_donors := mysql_connect_donors w;
  sqlite_connect_donors := sqlite_connect_donors w;
  select_donors_error := select_donors_error w;
  insert_request_error := insert_request_error w;
  lastrowid := lastrowid w;
  commit_request_error := commit_request_error w;
  insert_match_error := insert_match_error w;
  commit_matches_error := commit_matches_error w;
  smtp_error := smtp_error w;
  donors := table;
  matches := matches w
|}.

(** The matcher's own connection and query succeed. *)
Definition donor_store_up (w : World) : Prop :=
  is_Some (get_db_connection (MYSQL_AVAILABLE w) (USE_SQLITE w)
                             (mysql_connect_donors w) (sqlite_connect_donors w))
  /\ select_donors_error w = None.

(** The world with other answers from the mail server and to the match
    inserts. *)
Definition with_channel_answers (w : World) (smtp : string -> option exn)
    (insert_match : Z -> Z -> option exn) : World := {|
  MYSQL_AVAILABLE := MYSQL_AVAILABLE w;
  USE_SQLITE := USE_SQLITE w;
  EMAIL_USER := EMAIL_USER w;
  EMAIL_PASSWORD := EMAIL_PASSWORD w;
  mysql_connect_request := mysql_connect_request w;
  sqlite_connect_request := sqlite_connect_request w;
  mysql_connect_donors := mysql_connect_donors w;
  sqlite_connect_donors := sqlite_connect_donors w;
  select_donors_error := select_donors_error w;
  insert_request_error := insert_request_error w;
  lastrowid := lastrowid w;
  commit_request_error := commit_request_error w;
  insert_match_error := insert_match;
  commit_matches_error := commit_matches_error w;
  smtp_error := smtp;
  donors := donors w;
  matches := matches w
|}.

(** ** The donor match page *)

(** What [/donor-match] answers: a redirect to the main page, or the page
    with its two counts. *)
Inductive page : Type :=
| RedirectMain
| DonorMatch (nearby_count far_count : nat).

(** [donor_match_page()]. [request_id] is [request.args.get('request_id',
    type=int)]: [None] when absent or not an integer. [blood_requests] maps
    a request id to its [required_blood_group] and [hospital_location]. *)
Definition donor_match_page (w : World) (db_result : option db_type)
    (select_request_error : option exn)
    (blood_requests : gmap Z (string * string)) (request_id : option Z) : page :=
  match request_id with
  | None => RedirectMain
  | Some rid =>
      if (rid =? 0)%Z then RedirectMain
      else
        match db_result with
        | None => DonorMatch 0 0
        | Some _ =>
            let body : py page :=
              _ ← execute select_request_error;
              match blood_requests !! rid with
              | None => Return RedirectMain
              | Some (required_blood_group, hospital_location) =>
                  found ← find_compatible_donors w required_blood_group hospital_location;
                  Return (DonorMatch (length found.1) (length found.2))
              end in
            match body with
            | Return p => p
            | Raise _ => DonorMatch 0 0
            end
        end
  end.

(** ** More vocabulary *)

(** Donor type [d] may give to recipient type [r], by the table. *)
Definition can_donate (d r : string) : Prop := d ∈ compatible_groups_of r.

(** A sample server that drops the connection at [quit]. *)
Definition sample_server_quit_fails : SmtpServer := {|
  connect_error := None;
  starttls_error := None;
  login_error := None;
  send_error := None;
  quit_error := Some (OtherException "Connection unexpectedly closed")
|}.

Definition sample_server_ok : SmtpServer := {|
  connect_error := None;
  starttls_error := None;
  login_error := None;
  send_error := None;
  quit_error := None
|}.

Definition sample_registration : gmap string string :=
  list_to_map [
    ("name", "Leela");
    ("blood_group", "O-");
    ("email", "leela@example.org");
    ("phone", "9000000012");
    ("location", "mumbai")
  ].

(** A registration that reuses Asha's e-mail address. *)
Definition sample_registration_duplicate : gmap string string :=
  list_to_map [
    ("name", "Asha K");
    ("blood_group", "O-");
    ("email", "asha@example.org");
    ("phone", "9000000099");
    ("location", "Thane")
  ].

(** A registration with a blood group that is not one of the 8 types. *)
Definition sample_registration_odd : gmap string string :=
  list_to_map [
    ("name", "Mohan");
    ("blood_group", "o-");
    ("email", "mohan@example.org");
    ("phone", "9000000013");
    ("location", "Mumbai")
  ].

(** The sample world when the final commit finds the database locked. *)
Definition sample_world_locked : World := {|
  MYSQL_AVAILABLE := false;
  USE_SQLITE := true;
  EMAIL_USER := "alerts@example.org";
  EMAIL_PASSWORD := "secret";
  mysql_connect_request := None;
  sqlite_connect_request := None;
  mysql_connect_donors := None;
  sqlite_connect_donors := None;
  select_donors_error := None;
  insert_request_error := None;
  lastrowid := 42;
  commit_request_error := None;
  insert_match_error := fun _ _ => None;
  commit_matches_error := Some (OperationalError "database is locked");
  smtp_error := fun _ => None;
  donors := sample_donors;
  matches := [mkMatch 41 1]
|}.

(** The sample world without mail credentials. *)
Definition sample_world_no_mail : World := {|
  MYSQL_AVAILABLE := false;
  USE_SQLITE := true;
  EMAIL_USER := "";
  EMAIL_PASSWORD := "";
  mysql_connect_request := None;
  sqlite_connect_request := None;
  mysql_connect_donors := None;
  sqlite_connect_donors := None;
  select_donors_error := None;
  insert_request_error := None;
  lastrowid := 42;
  commit_request_error := None;
  insert_match_error := fun _ _ => None;
  commit_matches_error := None;
  smtp_error := fun _ => None;
  donors := sample_donors;
  matches := []
|}.

(** A request that lacks its location. *)
Definition sample_data_incomplete : gmap string string :=
  list_to_map [
    ("hospital_name", "City Hospital");
    ("hospital_email", "desk@cityhospital.example");
    ("hospital_phone", "0220000000");
    ("required_blood_group", "A+")
  ].

(** * Properties *)

(** ** Strings *)

Section StrFacts.
Import Str.

Lemma char_isspace_lower (c : ascii) : char_isspace (char_lower c) = char_isspace c.
Proof. destruct c as [[] [] [] [] [] [] [] []]; reflexivity. Qed.

Lemma lstrip_lower (s : string) : lstrip (lower s) = lower (lstrip s).
Proof.
  induction s as [|c s IH]; simpl; [reflexivity|].
  rewrite char_isspace_lower. destruct (char_isspace c); auto.
Qed.

Lemma rstrip_lower (s : string) : rstrip (lower s) = lower (rstrip s).
Proof.
  induction s as [|c s IH]; simpl; [reflexivity|].
  rewrite IH. destruct (rstrip s); simpl.
  - rewrite char_isspace_lower. destruct (char_isspace c); reflexivity.
  - reflexivity.
Qed.

(** Lowering and trimming commute: the code's order (lower, then strip)
    yields the design document's normal form. *)
Lemma strip_lower (s : string) : strip (lower s) = normalize s.
Proof. unfold strip, normalize, strip. rewrite lstrip_lower. apply rstrip_lower. Qed.

Lemma startswith_spec (x y : string) :
  startswith y x = true <-> exists q, y = x +:+ q.
Proof.
  revert y. induction x as [|a x IH]; intros y; simpl.
  - split; [intros _; exists y; reflexivity | reflexivity].
  - destruct y as [|b y].
    + split; [discriminate | intros [q Hq]; discriminate].
    + rewrite andb_true_iff, Ascii.eqb_eq, IH. split.
      * intros [-> [q ->]]. exists q. reflexivity.
      * intros [q Hq]. injection Hq as -> ->. eauto.
Qed.

Lemma contains_spec (x y : string) :
  contains y x = true <-> is_substring x y.
Proof.
  unfold is_substring. induction y as [|b y IH].
  - simpl. rewrite orb_false_r, startswith_spec. split.
    + intros [q Hq]. exists EmptyString, q. exact Hq.
    + intros (p & q & Hq). destruct p; [|discriminate]. exists q. exact Hq.
  - cbn [contains]. rewrite orb_true_iff, startswith_spec, IH. split.
    + intros [[q Hq] | (p & q & Hq)].
      * exists EmptyString, q. exact Hq.
      * exists (String b p), q. simpl. rewrite Hq. reflexivity.
    + intros (p & q & Hq). destruct p as [|c p].
      * left. exists q. exact Hq.
      * right. injection Hq as _ Hq. eauto.
Qed.

Lemma contains_empty (y : string) : contains y EmptyString = true.
Proof. destruct y; reflexivity. Qed.

End StrFacts.

(** ** The proximity classifier *)

Lemma distance_unfold (a b : string) :
  calculate_location_distance a b =
  if String.eqb (normalize a) (normalize b) then 0%Z
  else if Str.contains (normalize b) (normalize a) || Str.contains (normalize a) (normalize b)
       then 1%Z else 2%Z.
Proof. unfold calculate_location_distance. rewrite !strip_lower. reflexivity. Qed.

Lemma distance_cases (a b : string) :
  (calculate_location_distance a b = 0%Z /\ normalize a = normalize b)
  \/ (calculate_location_distance a b = 1%Z /\ normalize a <> normalize b
      /\ (is_substring (normalize a) (normalize b)
          \/ is_substring (normalize b) (normalize a)))
  \/ (calculate_location_distance a b = 2%Z /\ normalize a <> normalize b
      /\ ~ (is_substring (normalize a) (normalize b)
            \/ is_substring (normalize b) (normalize a))).
Proof.
  rewrite distance_unfold.
  destruct (String.eqb_spec (normalize a) (normalize b)) as [Heq|Hne]; [left; auto|].
  right.
  destruct (Str.contains (normalize b) (normalize a)
            || Str.contains (normalize a) (normalize b)) eqn:Hc.
  - left. apply orb_true_iff in Hc. rewrite !contains_spec in Hc. auto.
  - right. apply orb_false_iff in Hc. destruct Hc as [H1 H2].
    repeat split; [exact Hne|].
    rewrite <- !contains_spec. rewrite H1, H2. intros [?|?]; discriminate.
Qed.

(** C5. For every pair of locations the returned code is the code of the
    class the design document assigns: SAME (0) when the trimmed,
    case-folded strings are equal, else NEARBY (1) when one of them is a
    substring of the other, else DISTANT (2); and the three examples. *)
Theorem C5_classification (a b : string) :
  (forall t : proximity,
     classifies a b t <-> calculate_location_distance a b = proximity_code t)
  /\ calculate_location_distance "Mumbai" "Mumbai" = proximity_code SAME
  /\ calculate_location_distance "Mumbai" "Mumbai Central" = proximity_code NEARBY
  /\ calculate_location_distance "Mumbai" "Delhi" = proximity_code DISTANT.
Proof.
  split; [|repeat split; reflexivity].
  intros t.
  destruct (distance_cases a b) as [[-> H]|[[-> [Hne H]]|[-> [Hne H]]]];
    destruct t; simpl; split; try discriminate; try tauto.
Qed.

(** C6. The classification is symmetric in its two arguments. *)
Theorem C6_symmetric (a b : string) :
  calculate_location_distance a b = calculate_location_distance b a.
Proof.
  unfold calculate_location_distance.
  rewrite (String.eqb_sym (Str.strip (Str.lower b))).
  rewrite (orb_comm (Str.contains (Str.strip (Str.lower a)) _)).
  reflexivity.
Qed.

Example distance_same : calculate_location_distance "Mumbai" " MUMBAI  " = 0%Z.
Proof. reflexivity. Qed.

Example distance_nearby : calculate_location_distance "Mumbai Central" "mumbai" = 1%Z.
Proof. reflexivity. Qed.

Example distance_far : calculate_location_distance "Mumbai" "Delhi" = 2%Z.
Proof. reflexivity. Qed.

Example distance_blank : calculate_location_distance "   " "Delhi" = 1%Z.
Proof. reflexivity. Qed.

(** ** The compatibility table *)

Lemma unknown_blood_group (s : string) :
  s ∉ blood_types -> BLOOD_COMPATIBILITY !! s = None.
Proof.
  intros Hs. apply not_elem_of_list_to_map_1. simpl.
  intros Hin. apply Hs. unfold blood_types.
  rewrite !elem_of_cons in Hin. rewrite !elem_of_cons. tauto.
Qed.

(** C3. Each of the 8 blood types has a non-empty list of compatible donor
    types that contains the type itself; for O- the list is exactly O-,
    and the types compatible with AB+ are exactly the 8 types. *)
Theorem C3_table (T : string) :
  T ∈ blood_types ->
  compatible_groups_of T <> []
  /\ T ∈ compatible_groups_of T
  /\ compatible_groups_of "O-" = ["O-"]
  /\ (forall s : string, s ∈ compatible_groups_of "AB+" <-> s ∈ blood_types).
Proof.
  intros HT. split; [|split; [|split]].
  - unfold blood_types in HT.
    repeat (apply elem_of_cons in HT as [->|HT]);
      [discriminate .. | inversion HT].
  - unfold blood_types in HT.
    repeat (apply elem_of_cons in HT as [->|HT]);
      [vm_compute; repeat constructor .. | inversion HT].
  - reflexivity.
  - intros s. change (compatible_groups_of "AB+")
      with ["A+"; "A-"; "B+"; "B-"; "AB+"; "AB-"; "O+"; "O-"].
    unfold blood_types. rewrite !elem_of_cons. tauto.
Qed.

Lemma C3_table_witness :
  "B-" ∈ blood_types
  /\ compatible_groups_of "B-" <> []
  /\ "B-" ∈ compatible_groups_of "B-"
  /\ compatible_groups_of "O-" = ["O-"]
  /\ (forall s : string, s ∈ compatible_groups_of "AB+" <-> s ∈ blood_types).
Proof.
  assert (H : "B-" ∈ blood_types)
    by (unfold blood_types; repeat constructor).
  split; [exact H | exact (C3_table "B-" H)].
Defined.

(** ** The donor matcher *)

Lemma separate_spec (loc : string) (l nearby far : list Donor) :
  separate loc l nearby far =
  (nearby ++ filter (fun d => is_near loc d) l,
   far ++ filter (fun d => ¬ is_near loc d) l).
Proof.
  revert nearby far. induction l as [|d l IH]; intros nearby far; simpl.
  - rewrite !app_nil_r. reflexivity.
  - rewrite !filter_cons. fold (is_near loc d).
    destruct (is_near loc d) eqn:Hd; rewrite IH.
    + rewrite decide_True by exact I. rewrite decide_False by (intros H; apply H; exact I).
      rewrite <- app_assoc. reflexivity.
    + rewrite decide_False by (exact id). rewrite decide_True by (exact id).
      rewrite <- app_assoc. reflexivity.
Qed.

Lemma filter_elem_of_nil {A : Type} (f : A -> string) (l : list A) :
  filter (fun d => f d ∈ @nil string) l = [].
Proof.
  induction l as [|x l IH]; [reflexivity|].
  rewrite filter_cons_False; [exact IH | apply not_elem_of_nil].
Qed.

(** The matcher never raises: it returns the fetched donors, split by the
    proximity test, each part in fetch order. *)
Lemma find_compatible_donors_spec (w : World) (g loc : string) :
  find_compatible_donors w g loc =
  Return (filter (fun d => is_near loc d) (fetched w g),
          filter (fun d => ¬ is_near loc d) (fetched w g)).
Proof.
  unfold find_compatible_donors, fetched, select_donors.
  destruct (get_db_connection _ _ _ _) as [ty|]; [|reflexivity].
  fold (compatible_groups_of g).
  destruct (compatible_groups_of g) as [|c cs] eqn:Hg; simpl.
  - rewrite filter_elem_of_nil. destruct (select_donors_error w); reflexivity.
  - destruct (select_donors_error w); simpl; [reflexivity|].
    rewrite separate_spec. reflexivity.
Qed.

Lemma find_compatible_donors_inv (w : World) (g loc : string) (near far : list Donor) :
  find_compatible_donors w g loc = Return (near, far) ->
  near = filter (fun d => is_near loc d) (fetched w g)
  /\ far = filter (fun d => ¬ is_near loc d) (fetched w g).
Proof. rewrite find_compatible_donors_spec. intros [= -> ->]. auto. Qed.

Lemma fetched_unknown (w : World) (g : string) :
  g ∉ blood_types -> fetched w g = [].
Proof.
  intros Hg. unfold fetched, compatible_groups_of, dict_get.
  rewrite (unknown_blood_group g Hg). simpl.
  destruct (get_db_connection _ _ _ _); [|reflexivity].
  destruct (select_donors_error w); [reflexivity|]. apply filter_elem_of_nil.
Qed.

Lemma fetched_eligible (w : World) (g : string) (d : Donor) :
  d ∈ fetched w g ->
  d ∈ donors w /\ donor_blood_group d ∈ compatible_groups_of g.
Proof.
  unfold fetched. destruct (get_db_connection _ _ _ _); [|intros H; inversion H].
  destruct (select_donors_error w); [intros H; inversion H|].
  rewrite list_elem_of_filter. tauto.
Qed.

(** C2 (as amended). A string that is not one of the 8 blood types
    resolves to the empty list of compatible types, and the matcher then
    returns two empty tiers; nothing is raised. *)
Theorem C2_unknown_blood_type (w : World) (s loc : string) :
  s ∉ blood_types ->
  compatible_groups_of s = []
  /\ find_compatible_donors w s loc = Return ([], []).
Proof.
  intros Hs. split.
  - unfold compatible_groups_of, dict_get. rewrite (unknown_blood_group s Hs). reflexivity.
  - rewrite find_compatible_donors_spec, (fetched_unknown w s Hs). reflexivity.
Qed.

Lemma not_a_blood_type : "X+" ∉ blood_types.
Proof. unfold blood_types. rewrite !elem_of_cons, elem_of_nil. intuition discriminate. Qed.

Lemma C2_unknown_blood_type_witness :
  ("X+" ∉ blood_types)
  /\ compatible_groups_of "X+" = []
  /\ find_compatible_donors sample_world "X+" "Mumbai" = Return ([], []).
Proof.
  split; [exact not_a_blood_type|].
  exact (C2_unknown_blood_type sample_world "X+" "Mumbai" not_a_blood_type).
Defined.

(** C2, as stated, fails: for the string X+, which is not a blood type,
    the matcher returns and no error is raised. *)
Lemma C2_counterexample :
  ("X+" ∉ blood_types)
  /\ ~ (exists e : exn, find_compatible_donors sample_world "X+" "Mumbai" = Raise e).
Proof.
  split; [exact not_a_blood_type|].
  intros [e He]. rewrite find_compatible_donors_spec in He. discriminate.
Qed.

(** C4 (as amended). When the donor store cannot be reached, or refuses
    the query, the matcher returns two empty tiers, which is also what it
    returns for any world whose store holds no eligible donor: the caller
    cannot tell them apart, and nothing is raised. *)
Theorem C4_unreachable_store (w : World) (g loc : string) :
  get_db_connection (MYSQL_AVAILABLE w) (USE_SQLITE w)
                    (mysql_connect_donors w) (sqlite_connect_donors w) = None
  \/ is_Some (select_donors_error w) ->
  find_compatible_donors w g loc = Return ([], [])
  /\ (forall w' : World, fetched w' g = [] ->
        find_compatible_donors w' g loc = find_compatible_donors w g loc).
Proof.
  intros Hdown.
  assert (Hw : fetched w g = []).
  { unfold fetched. destruct Hdown as [-> | [e ->]]; [reflexivity|].
    destruct (get_db_connection _ _ _ _); reflexivity. }
  rewrite !find_compatible_donors_spec, Hw.
  split; [reflexivity|].
  intros w' Hw'. rewrite find_compatible_donors_spec, Hw'. reflexivity.
Qed.

Lemma C4_unreachable_store_witness :
  get_db_connection (MYSQL_AVAILABLE sample_world_down) (USE_SQLITE sample_world_down)
                    (mysql_connect_donors sample_world_down)
                    (sqlite_connect_donors sample_world_down) = None
  /\ find_compatible_donors sample_world_down "A+" "Mumbai" = Return ([], [])
  /\ (forall w' : World, fetched w' "A+" = [] ->
        find_compatible_donors w' "A+" "Mumbai"
        = find_compatible_donors sample_world_down "A+" "Mumbai").
Proof.
  split; [reflexivity|].
  apply (C4_unreachable_store sample_world_down "A+" "Mumbai"). left. reflexivity.
Defined.

(** C4, as stated, fails: with the store out of reach nothing is raised,
    and the result equals that of a reachable store without donors. *)
Lemma C4_counterexample :
  get_db_connection (MYSQL_AVAILABLE sample_world_down) (USE_SQLITE sample_world_down)
                    (mysql_connect_donors sample_world_down)
                    (sqlite_connect_donors sample_world_down) = None
  /\ ~ (exists e : exn, find_compatible_donors sample_world_down "A+" "Mumbai" = Raise e)
  /\ find_compatible_donors sample_world_down "A+" "Mumbai"
     = find_compatible_donors sample_world_empty "A+" "Mumbai".
Proof.
  split; [reflexivity|]. split; [|reflexivity].
  intros [e He]. rewrite find_compatible_donors_spec in He. discriminate.
Qed.

(** C10. The distance is always 0, 1 or 2; it is never 2 when one of the
    cleaned locations is empty, so a fetched donor whose location is blank
    is placed in the near tier, whatever the hospital location. *)
Theorem C10_blank_location (a b : string) (w : World) (g loc : string)
    (near far : list Donor) (d : Donor) :
  calculate_location_distance a b ∈ [0%Z; 1%Z; 2%Z]
  /\ (Str.strip (Str.lower a) = "" \/ Str.strip (Str.lower b) = "" ->
      calculate_location_distance a b <> 2%Z)
  /\ (find_compatible_donors w g loc = Return (near, far) ->
      Str.strip (Str.lower (donor_location d)) = "" ->
      (d ∉ far) /\ (d ∈ fetched w g -> d ∈ near)).
Proof.
  assert (Hblank : forall x y : string,
             Str.strip (Str.lower x) = "" \/ Str.strip (Str.lower y) = "" ->
             calculate_location_distance x y <> 2%Z).
  { intros x y Hxy. unfold calculate_location_distance.
    destruct (String.eqb _ _); [discriminate|].
    destruct Hxy as [-> | ->]; rewrite contains_empty; simpl;
      rewrite ?orb_true_r; discriminate. }
  split; [|split].
  - unfold calculate_location_distance.
    destruct (String.eqb _ _); [repeat constructor|].
    destruct (_ || _); repeat constructor.
  - apply Hblank.
  - intros Hfind Hd.
    apply find_compatible_donors_inv in Hfind as [-> ->].
    assert (Hnear : is_near loc d = true).
    { unfold is_near. apply Z.leb_le.
      pose proof (Hblank (donor_location d) loc (or_introl Hd)) as Hne.
      destruct (distance_cases (donor_location d) loc)
        as [[-> _]|[[-> _]|[H2 _]]]; [lia | lia | contradiction]. }
    rewrite !list_elem_of_filter, Hnear. split.
    + intros [Hn _]. apply Hn. exact I.
    + intros Hin. split; [exact I | exact Hin].
Qed.

Lemma C10_blank_location_witness :
  calculate_location_distance "  " "Mumbai" ∈ [0%Z; 1%Z; 2%Z]
  /\ calculate_location_distance "  " "Mumbai" <> 2%Z
  /\ (mkDonor 6 "Divya" "A+" "divya@example.org" "9000000006" "  "
        ∉ (filter (fun d => ¬ is_near "Mumbai" d) (fetched sample_world "A+")))
  /\ (mkDonor 6 "Divya" "A+" "divya@example.org" "9000000006" "  "
        ∈ (filter (fun d => is_near "Mumbai" d) (fetched sample_world "A+"))).
Proof.
  pose proof (C10_blank_location "  " "Mumbai" sample_world "A+" "Mumbai"
                (filter (fun d => is_near "Mumbai" d) (fetched sample_world "A+"))
                (filter (fun d => ¬ is_near "Mumbai" d) (fetched sample_world "A+"))
                (mkDonor 6 "Divya" "A+" "divya@example.org" "9000000006" "  "))
    as (Hrange & Hne & Hdonor).
  specialize (Hne (or_introl eq_refl)).
  specialize (Hdonor (find_compatible_donors_spec sample_world "A+" "Mumbai") eq_refl)
    as [Hfar Hnear].
  repeat split; [exact Hrange | exact Hne | exact Hfar |].
  apply Hnear. vm_compute. repeat constructor.
Defined.

(** ** The notification loops *)

Lemma frame_eq (n n' : Z) (p p' : list Match) (t t' : list event) :
  n = n' -> p = p' -> t = t' ->
  (Return tt, mkFrame n p t) = (Return tt, mkFrame n' p' t').
Proof. intros -> -> ->. reflexivity. Qed.

Lemma notify_nearby_run (w : World) (rid : Z) (d : Donor) (s : Frame) :
  run_try (notify_nearby w rid d) (fun _ => mret tt) s =
  (Return tt,
   mkFrame (notified_count s + (if near_recorded w rid d then 1 else 0))
           (pending s ++ (if near_recorded w rid d then [match_row rid d] else []))
           (trace s ++ near_events w rid d)).
Proof.
  unfold run_try, notify_nearby, near_recorded, near_events, insert_ok, email_ok,
    execute_insert_match, incr_notified_count, emit, mbind, Run_bind, mret, Run_ret.
  destruct s as [n p t]. simpl.
  destruct (send_email_notification w (donor_email d) (donor_name d)); simpl.
  - destruct (insert_match_error w rid (donor_id d)); simpl;
      rewrite <- ?app_assoc, ?app_nil_r, ?Z.add_0_r; reflexivity.
  - rewrite <- ?app_assoc, ?app_nil_r, ?Z.add_0_r. reflexivity.
Qed.

Lemma notify_far_run (w : World) (rid : Z) (d : Donor) (s : Frame) :
  run_try (notify_far w rid d) (fun _ => mret tt) s =
  (Return tt,
   mkFrame (notified_count s)
           (pending s ++ (if insert_ok w rid d then [match_row rid d] else []))
           (trace s ++ far_events rid d)).
Proof.
  unfold run_try, notify_far, far_events, insert_ok,
    execute_insert_match, emit, mbind, Run_bind, mret, Run_ret.
  destruct s as [n p t]. simpl.
  destruct (insert_match_error w rid (donor_id d)); simpl;
    rewrite <- ?app_assoc, ?app_nil_r; reflexivity.
Qed.

Lemma for_each_cons {X : Type} (x : X) (l : list X) (body : X -> Run unit) (s s' : Frame) :
  body x s = (Return tt, s') ->
  for_each (x :: l) body s = for_each l body s'.
Proof. intros H. simpl. unfold mbind, Run_bind. rewrite H. reflexivity. Qed.

Lemma near_loop_run (w : World) (rid : Z) (near : list Donor) (s : Frame) :
  for_each near (fun donor => run_try (notify_nearby w rid donor) (fun _ => mret tt)) s =
  (Return tt,
   mkFrame (notified_count s
            + Z.of_nat (length (filter (fun d => near_recorded w rid d) near)))
           (pending s ++ (match_row rid <$> filter (fun d => near_recorded w rid d) near))
           (trace s ++ concat (near_events w rid <$> near))).
Proof.
  revert s. induction near as [|d near IH]; intros s.
  - simpl. rewrite Z.add_0_r, !app_nil_r. destruct s; reflexivity.
  - rewrite (for_each_cons d near
               (fun donor => run_try (notify_nearby w rid donor) (fun _ => mret tt))
               s _ (notify_nearby_run w rid d s)), IH.
    apply frame_eq; cbn [notified_count pending trace].
    + destruct (near_recorded w rid d) eqn:E.
      * rewrite filter_cons_True by (rewrite E; exact I). cbn [length]. lia.
      * rewrite filter_cons_False by (rewrite E; exact id). lia.
    + destruct (near_recorded w rid d) eqn:E.
      * rewrite filter_cons_True by (rewrite E; exact I).
        rewrite <- app_assoc. reflexivity.
      * rewrite filter_cons_False by (rewrite E; exact id).
        rewrite app_nil_r. reflexivity.
    + rewrite fmap_cons. cbn [concat]. rewrite <- app_assoc. reflexivity.
Qed.

Lemma far_loop_run (w : World) (rid : Z) (far : list Donor) (s : Frame) :
  for_each far (fun donor => run_try (notify_far w rid donor) (fun _ => mret tt)) s =
  (Return tt,
   mkFrame (notified_count s)
           (pending s ++ (match_row rid <$> filter (fun d => insert_ok w rid d) far))
           (trace s ++ concat (far_events rid <$> far))).
Proof.
  revert s. induction far as [|d far IH]; intros s.
  - simpl. rewrite !app_nil_r. destruct s; reflexivity.
  - rewrite (for_each_cons d far
               (fun donor => run_try (notify_far w rid donor) (fun _ => mret tt))
               s _ (notify_far_run w rid d s)), IH.
    apply frame_eq; cbn [notified_count pending trace].
    + reflexivity.
    + destruct (insert_ok w rid d) eqn:E.
      * rewrite filter_cons_True by (rewrite E; exact I).
        rewrite <- app_assoc. reflexivity.
      * rewrite filter_cons_False by (rewrite E; exact id).
        rewrite app_nil_r. reflexivity.
    + rewrite fmap_cons. cbn [concat]. rewrite <- app_assoc. reflexivity.
Qed.

(** Both loops always run to their end, whatever fails on the way. *)
Lemma notify_all_run (w : World) (rid : Z) (near far : list Donor) (s : Frame) :
  notify_all w rid near far s =
  (Return tt,
   mkFrame (notified_count s
            + Z.of_nat (length (filter (fun d => near_recorded w rid d) near)))
           (pending s ++ run_rows w rid near far)
           (trace s ++ run_events w rid near far)).
Proof.
  unfold notify_all, mbind, Run_bind, run_try at 1 3.
  rewrite near_loop_run, far_loop_run. simpl.
  unfold run_rows, run_events. rewrite <- !app_assoc. reflexivity.
Qed.

(** ** The endpoint as a whole *)

Lemma required_fields_present (data : gmap string string) :
  forallb (fun field => bool_decide (is_Some (data !! field))) required_fields = true ->
  exists g loc : string,
    data !! "required_blood_group" = Some g /\ data !! "hospital_location" = Some loc.
Proof.
  unfold required_fields. cbn [forallb]. rewrite !andb_true_iff, !bool_decide_eq_true.
  intros (_ & _ & _ & [loc Hloc] & [g Hg] & _). eauto.
Qed.

(** A stored request: the calls are those of the two loops over the tiers
    the matcher returned; the rows reach the table when the final commit
    succeeds and are lost when it fails. *)
Lemma submit_request_run (w : World) (data : gmap string string) (g loc : string) :
  persisted w data ->
  data !! "required_blood_group" = Some g ->
  data !! "hospital_location" = Some loc ->
  let near := filter (fun d => is_near loc d) (fetched w g) in
  let far := filter (fun d => ¬ is_near loc d) (fetched w g) in
  calls (submit_request w data) = run_events w (lastrowid w) near far
  /\ match commit_matches_error w with
     | None =>
         answer (submit_request w data)
         = Created (Z.of_nat (length (filter (fun d => near_recorded w (lastrowid w) d) near)))
                   (lastrowid w) (length near) (length far)
         /\ matches_after (submit_request w data)
            = matches w ++ run_rows w (lastrowid w) near far
     | Some _ =>
         (exists st msg, answer (submit_request w data) = Failed st msg)
         /\ matches_after (submit_request w data) = matches w
     end.
Proof.
  intros (Hf & [ty Hty] & Hi & Hcr) Hg Hloc near far.
  unfold submit_request. rewrite Hf, Hty. cbn [negb].
  unfold submit_request_body, mbind, Run_bind, lift, dict_item, get_notified_count,
    mret, Run_ret.
  rewrite Hi, Hcr, Hg, Hloc, find_compatible_donors_spec.
  cbn [execute]. fold near far. rewrite notify_all_run.
  cbn [notified_count pending trace app].
  destruct (commit_matches_error w) as [e|]; cbn [execute].
  - destruct e as [msg|msg]; [destruct (Str.contains _ _)|]; cbn [calls answer matches_after];
      eauto.
  - cbn [calls answer matches_after notified_count pending trace]. auto.
Qed.

(** A request that was not stored leaves no trace: no call, no row. *)
Lemma submit_request_not_persisted (w : World) (data : gmap string string) :
  ~ persisted w data ->
  calls (submit_request w data) = []
  /\ matches_after (submit_request w data) = matches w
  /\ exists st msg, answer (submit_request w data) = Failed st msg.
Proof.
  intros Hn. unfold submit_request.
  destruct (forallb _ required_fields) eqn:Hf; cbn [negb]; [|simpl; eauto].
  destruct (get_db_connection _ _ _ _) as [ty|] eqn:Hty; [|simpl; eauto].
  unfold submit_request_body, mbind, Run_bind, lift.
  destruct (insert_request_error w) as [e|] eqn:Hi; cbn [execute].
  { destruct e as [msg|msg]; [destruct (Str.contains _ _)|]; simpl; eauto. }
  destruct (commit_request_error w) as [e|] eqn:Hcr; cbn [execute].
  { destruct e as [msg|msg]; [destruct (Str.contains _ _)|]; simpl; eauto. }
  exfalso. apply Hn. unfold persisted. rewrite Hty. eauto.
Qed.

Lemma persisted_dec (w : World) (data : gmap string string) :
  persisted w data \/ ~ persisted w data.
Proof.
  unfold persisted.
  destruct (forallb _ required_fields); [|right; intros (H & _); discriminate].
  destruct (get_db_connection _ _ _ _);
    [|right; intros (_ & [x H] & _); discriminate].
  destruct (insert_request_error w); [right; intros (_ & _ & H & _); discriminate|].
  destruct (commit_request_error w); [right; intros (_ & _ & _ & H); discriminate|].
  left. eauto.
Qed.

Lemma created_inv (w : World) (data : gmap string string) (n rid : Z) (nc fc : nat) :
  answer (submit_request w data) = Created n rid nc fc ->
  persisted w data /\ commit_matches_error w = None.
Proof.
  intros Hc. destruct (persisted_dec w data) as [Hp|Hn].
  - split; [exact Hp|].
    destruct (required_fields_present data (proj1 Hp)) as (g & loc & Hg & Hloc).
    destruct (submit_request_run w data g loc Hp Hg Hloc) as [_ Hrun].
    destruct (commit_matches_error w); [|reflexivity].
    destruct Hrun as [(st & msg & Hfail) _]. congruence.
  - destruct (submit_request_not_persisted w data Hn) as (_ & _ & st & msg & Hfail).
    congruence.
Qed.

Lemma filter_all {A : Type} (P : A -> Prop) `{forall x, Decision (P x)} (l : list A) :
  (forall x, P x) -> filter P l = l.
Proof.
  intros HP. induction l as [|x l IH]; [reflexivity|].
  rewrite filter_cons_True by apply HP. rewrite IH. reflexivity.
Qed.

(** With a store that accepts every match row, the rows of a run are those
    of the mail-confirmed near donors followed by those of the first five
    far donors. *)
Lemma run_rows_accepting (w : World) (rid : Z) (near far : list Donor) :
  (forall did : Z, insert_match_error w rid did = None) ->
  filter (fun d => near_recorded w rid d) near = filter (fun d => email_ok w d) near
  /\ run_rows w rid near far
     = (match_row rid <$> filter (fun d => email_ok w d) near)
       ++ (match_row rid <$> take 5 far).
Proof.
  intros Hok.
  assert (Hins : forall d, insert_ok w rid d = true)
    by (intros d; unfold insert_ok; rewrite Hok; reflexivity).
  assert (Hnear : filter (fun d => near_recorded w rid d) near
                  = filter (fun d => email_ok w d) near).
  { apply list_filter_iff. intros d. unfold near_recorded.
    rewrite Hins, andb_true_r. reflexivity. }
  split; [exact Hnear|].
  unfold run_rows. rewrite Hnear. f_equal. f_equal.
  apply filter_all. intros d. rewrite Hins. exact I.
Qed.

(** C1 (as amended). For every stored request, with the tiers the matcher
    returned: if the final commit succeeds, the rows added to [matches]
    are, in order, one for each near donor whose e-mail was reported sent
    and whose insert the store accepted, none for the other near donors,
    then one for each of the first five far donors whose insert the store
    accepted, whatever their e-mail outcome; the count in the answer is the
    number of near rows and far donors never add to it. If the final commit
    fails, no row is kept and an error is answered. With a store that
    accepts every insert, the near rows are exactly the mail-confirmed near
    donors, the far rows all of the first five, and the count the number
    of mail-confirmed near donors. *)
Theorem C1_match_rows (w : World) (data : gmap string string)
    (g loc : string) (near far : list Donor) :
  persisted w data ->
  data !! "required_blood_group" = Some g ->
  data !! "hospital_location" = Some loc ->
  find_compatible_donors w g loc = Return (near, far) ->
  match commit_matches_error w with
  | None =>
      new_matches w (submit_request w data)
      = (match_row (lastrowid w) <$>
           filter (fun d => email_ok w d && insert_ok w (lastrowid w) d) near)
        ++ (match_row (lastrowid w) <$>
              filter (fun d => insert_ok w (lastrowid w) d) (take 5 far))
      /\ answer (submit_request w data)
         = Created
             (Z.of_nat (length (filter (fun d => email_ok w d
                                                 && insert_ok w (lastrowid w) d) near)))
             (lastrowid w) (length near) (length far)
      /\ ((forall did : Z, insert_match_error w (lastrowid w) did = None) ->
          new_matches w (submit_request w data)
          = (match_row (lastrowid w) <$> filter (fun d => email_ok w d) near)
            ++ (match_row (lastrowid w) <$> take 5 far)
          /\ answer (submit_request w data)
             = Created (Z.of_nat (length (filter (fun d => email_ok w d) near)))
                       (lastrowid w) (length near) (length far))
  | Some _ =>
      new_matches w (submit_request w data) = []
      /\ exists (st : Z) (msg : string), answer (submit_request w data) = Failed st msg
  end.
Proof.
  intros Hp Hg Hloc Hfind.
  apply find_compatible_donors_inv in Hfind as [-> ->].
  destruct (submit_request_run w data g loc Hp Hg Hloc) as [_ Hrun].
  unfold new_matches.
  destruct (commit_matches_error w) as [e|].
  - destruct Hrun as [Hfail Hrows]. rewrite Hrows, drop_all. auto.
  - destruct Hrun as [Hcreated Hrows]. rewrite Hrows, drop_app_length.
    split; [reflexivity|]. split; [exact Hcreated|].
    intros Hok.
    destruct (run_rows_accepting w (lastrowid w)
                (filter (fun d => is_near loc d) (fetched w g))
                (filter (fun d => ¬ is_near loc d) (fetched w g)) Hok) as [Hnear Hrr].
    split; [exact Hrr|]. rewrite Hcreated, Hnear. reflexivity.
Qed.

Lemma C1_match_rows_witness :
  new_matches sample_world_busy (submit_request sample_world_busy sample_data)
  = (match_row 42 <$>
       filter (fun d => email_ok sample_world_busy d && insert_ok sample_world_busy 42 d)
         (filter (fun d => is_near "Mumbai" d) (fetched sample_world_busy "A+")))
    ++ (match_row 42 <$>
          filter (fun d => insert_ok sample_world_busy 42 d)
            (take 5 (filter (fun d => ¬ is_near "Mumbai" d)
                       (fetched sample_world_busy "A+"))))
  /\ answer (submit_request sample_world_busy sample_data)
     = Created
         (Z.of_nat
            (length (filter (fun d => email_ok sample_world_busy d
                                      && insert_ok sample_world_busy 42 d)
                       (filter (fun d => is_near "Mumbai" d)
                          (fetched sample_world_busy "A+")))))
         42
         (length (filter (fun d => is_near "Mumbai" d) (fetched sample_world_busy "A+")))
         (length (filter (fun d => ¬ is_near "Mumbai" d) (fetched sample_world_busy "A+"))).
Proof.
  pose proof (C1_match_rows sample_world_busy sample_data "A+" "Mumbai"
                (filter (fun d => is_near "Mumbai" d) (fetched sample_world_busy "A+"))
                (filter (fun d => ¬ is_near "Mumbai" d) (fetched sample_world_busy "A+")))
    as H.
  destruct H as (Hrows & Hans & _).
  - unfold persisted. repeat split; try reflexivity. exists sqlite. reflexivity.
  - reflexivity.
  - reflexivity.
  - vm_compute. reflexivity.
  - split; [exact Hrows | exact Hans].
Defined.

(** C1, as first stated, fails. In the sample world whose store refuses
    the match row of donor 1 the request is stored and answered 201; donor 1
    is in the near tier and its e-mail is reported sent, yet no row for it is
    added, and the count in the answer is 2 although three near donors are
    mail-confirmed. In the sample world whose final commit finds the
    database locked the request is stored as well, and no row is kept. *)
Lemma C1_counterexample :
  persisted sample_world_busy sample_data
  /\ find_compatible_donors sample_world_busy "A+" "Mumbai"
     = Return
         ([mkDonor 1 "Asha" "O-" "asha@example.org" "9000000001" "Mumbai";
           mkDonor 2 "Ravi" "A+" "ravi@example.org" "9000000002" "Mumbai Central";
           mkDonor 6 "Divya" "A+" "divya@example.org" "9000000006" "  "],
          filter (fun d => ¬ is_near "Mumbai" d) (fetched sample_world_busy "A+"))
  /\ email_ok sample_world_busy
       (mkDonor 1 "Asha" "O-" "asha@example.org" "9000000001" "Mumbai") = true
  /\ (match_row 42 (mkDonor 1 "Asha" "O-" "asha@example.org" "9000000001" "Mumbai")
      ∉ new_matches sample_world_busy (submit_request sample_world_busy sample_data))
  /\ answer (submit_request sample_world_busy sample_data) = Created 2 42 3 7
  /\ length (filter (fun d => email_ok sample_world_busy d)
               [mkDonor 1 "Asha" "O-" "asha@example.org" "9000000001" "Mumbai";
                mkDonor 2 "Ravi" "A+" "ravi@example.org" "9000000002" "Mumbai Central";
                mkDonor 6 "Divya" "A+" "divya@example.org" "9000000006" "  "]) = 3
  /\ persisted sample_world_locked sample_data
  /\ new_matches sample_world_locked (submit_request sample_world_locked sample_data) = [].
Proof.
  split; [unfold persisted; repeat split; try reflexivity; exists sqlite; reflexivity|].
  split; [vm_compute; reflexivity|].
  split; [reflexivity|].
  split; [apply (bool_decide_unpack _); vm_compute; exact I|].
  split; [vm_compute; reflexivity|].
  split; [vm_compute; reflexivity|].
  split; [unfold persisted; repeat split; try reflexivity; exists sqlite; reflexivity|].
  vm_compute. reflexivity.
Qed.

Example sample_answer :
  answer (submit_request sample_world sample_data) = Created 2 42 3 7.
Proof. vm_compute. reflexivity. Qed.

Example sample_rows :
  match_donor_id <$> new_matches sample_world (submit_request sample_world sample_data)
  = [1; 6; 4; 5; 7; 8; 9]%Z.
Proof. vm_compute. reflexivity. Qed.

(** A refused insert is skipped, together with its count, and the loop goes on. *)
Example busy_answer :
  answer (submit_request sample_world_busy sample_data) = Created 2 42 3 7
  /\ match_donor_id <$> matches_after (submit_request sample_world_busy sample_data)
     = [2; 6; 4; 5; 7; 8; 9]%Z.
Proof. vm_compute. split; reflexivity. Qed.

(** ** Reading a trace *)

Lemma email_calls_app (t1 t2 : list event) :
  email_calls (t1 ++ t2) = email_calls t1 ++ email_calls t2.
Proof.
  induction t1 as [|e t1 IH]; [reflexivity|].
  destruct e; simpl; rewrite IH; reflexivity.
Qed.

Lemma whatsapp_calls_app (t1 t2 : list event) :
  whatsapp_calls (t1 ++ t2) = whatsapp_calls t1 ++ whatsapp_calls t2.
Proof.
  induction t1 as [|e t1 IH]; [reflexivity|].
  destruct e; simpl; rewrite IH; reflexivity.
Qed.

Lemma match_inserts_app (t1 t2 : list event) :
  match_inserts (t1 ++ t2) = match_inserts t1 ++ match_inserts t2.
Proof.
  induction t1 as [|e t1 IH]; [reflexivity|].
  destruct e; simpl; rewrite IH; reflexivity.
Qed.

Lemma email_calls_near (w : World) (rid : Z) (l : list Donor) :
  email_calls (concat (near_events w rid <$> l)) = email_target <$> l.
Proof.
  induction l as [|d l IH]; [reflexivity|].
  rewrite !fmap_cons. cbn [concat]. rewrite email_calls_app, IH.
  unfold near_events. destruct (email_ok w d); reflexivity.
Qed.

Lemma email_calls_far (rid : Z) (l : list Donor) :
  email_calls (concat (far_events rid <$> l)) = email_target <$> l.
Proof.
  induction l as [|d l IH]; [reflexivity|].
  rewrite !fmap_cons. cbn [concat]. rewrite email_calls_app, IH. reflexivity.
Qed.

Lemma whatsapp_calls_near (w : World) (rid : Z) (l : list Donor) :
  whatsapp_calls (concat (near_events w rid <$> l)) = whatsapp_target <$> l.
Proof.
  induction l as [|d l IH]; [reflexivity|].
  rewrite !fmap_cons. cbn [concat]. rewrite whatsapp_calls_app, IH.
  unfold near_events. destruct (email_ok w d); reflexivity.
Qed.

Lemma whatsapp_calls_far (rid : Z) (l : list Donor) :
  whatsapp_calls (concat (far_events rid <$> l)) = whatsapp_target <$> l.
Proof.
  induction l as [|d l IH]; [reflexivity|].
  rewrite !fmap_cons. cbn [concat]. rewrite whatsapp_calls_app, IH. reflexivity.
Qed.

Lemma match_inserts_near (w : World) (rid : Z) (l : list Donor) :
  match_inserts (concat (near_events w rid <$> l))
  = match_row rid <$> filter (fun d => email_ok w d) l.
Proof.
  induction l as [|d l IH]; [reflexivity|].
  rewrite fmap_cons. cbn [concat]. rewrite match_inserts_app, IH.
  unfold near_events. destruct (email_ok w d) eqn:E.
  - rewrite filter_cons_True by (rewrite E; exact I). reflexivity.
  - rewrite filter_cons_False by (rewrite E; exact id). reflexivity.
Qed.

Lemma match_inserts_far (rid : Z) (l : list Donor) :
  match_inserts (concat (far_events rid <$> l)) = match_row rid <$> l.
Proof.
  induction l as [|d l IH]; [reflexivity|].
  rewrite !fmap_cons. cbn [concat]. rewrite match_inserts_app, IH. reflexivity.
Qed.

Lemma run_events_email (w : World) (rid : Z) (near far : list Donor) :
  email_calls (run_events w rid near far) = email_target <$> (near ++ take 5 far).
Proof.
  unfold run_events.
  rewrite email_calls_app, email_calls_near, email_calls_far, fmap_app. reflexivity.
Qed.

Lemma run_events_whatsapp (w : World) (rid : Z) (near far : list Donor) :
  whatsapp_calls (run_events w rid near far) = whatsapp_target <$> (near ++ take 5 far).
Proof.
  unfold run_events.
  rewrite whatsapp_calls_app, whatsapp_calls_near, whatsapp_calls_far, fmap_app.
  reflexivity.
Qed.

(** ** Eligibility of recorded donors *)

Lemma row_of_fetched (rid : Z) (l fetched_donors : list Donor) (m : Match) :
  (forall d, d ∈ l -> d ∈ fetched_donors) ->
  m ∈ match_row rid <$> l ->
  exists d, d ∈ fetched_donors /\ m = match_row rid d.
Proof.
  intros Hsub Hm. apply list_elem_of_fmap in Hm as (d & -> & Hd). eauto.
Qed.

Lemma take_elem_of {A : Type} (n : nat) (l : list A) (x : A) :
  x ∈ take n l -> x ∈ l.
Proof.
  rewrite elem_of_take. intros (i & Hi & _). apply list_elem_of_lookup. eauto.
Qed.

Lemma tiers_fetched (w : World) (g loc : string) (d : Donor) :
  d ∈ filter (fun d => is_near loc d) (fetched w g)
  \/ d ∈ take 5 (filter (fun d => ¬ is_near loc d) (fetched w g)) ->
  d ∈ fetched w g.
Proof.
  intros [H|H].
  - apply list_elem_of_filter in H. tauto.
  - apply take_elem_of, list_elem_of_filter in H. tauto.
Qed.

(** C8. Every row a run adds to [matches], and every match insert it
    issues in either loop, carries the new request's id and the id of a
    donor of the table whose blood group is in the compatible list of the
    requested blood group. *)
Theorem C8_match_eligibility (w : World) (data : gmap string string) (m : Match) :
  m ∈ new_matches w (submit_request w data)
  \/ m ∈ match_inserts (calls (submit_request w data)) ->
  exists (g : string) (d : Donor),
    data !! "required_blood_group" = Some g
    /\ d ∈ donors w
    /\ donor_id d = match_donor_id m
    /\ donor_blood_group d ∈ compatible_groups_of g
    /\ match_request_id m = lastrowid w.
Proof.
  intros Hm. unfold new_matches in Hm.
  destruct (persisted_dec w data) as [Hp|Hn].
  - destruct (required_fields_present data (proj1 Hp)) as (g & loc & Hg & Hloc).
    destruct (submit_request_run w data g loc Hp Hg Hloc) as [Hcalls Hrun].
    set (near := filter (fun d => is_near loc d) (fetched w g)) in *.
    set (far := filter (fun d => ¬ is_near loc d) (fetched w g)) in *.
    assert (Hsrc : exists d, d ∈ fetched w g /\ m = match_row (lastrowid w) d).
    { destruct Hm as [Hm|Hm].
      - destruct (commit_matches_error w).
        + destruct Hrun as [_ Hrows]. rewrite Hrows, drop_all in Hm. inversion Hm.
        + destruct Hrun as [_ Hrows]. rewrite Hrows, drop_app_length in Hm.
          unfold run_rows in Hm. apply elem_of_app in Hm as [Hm|Hm];
            (eapply row_of_fetched; [|exact Hm]); intros d Hd;
            apply list_elem_of_filter in Hd as [_ Hd];
            apply (tiers_fetched w g loc); [left|right]; exact Hd.
      - rewrite Hcalls in Hm. unfold run_events in Hm.
        rewrite match_inserts_app, match_inserts_near, match_inserts_far in Hm.
        apply elem_of_app in Hm as [Hm|Hm];
          (eapply row_of_fetched; [|exact Hm]); intros d Hd.
        + apply list_elem_of_filter in Hd as [_ Hd].
          apply (tiers_fetched w g loc). left. exact Hd.
        + apply (tiers_fetched w g loc). right. exact Hd. }
    destruct Hsrc as (d & Hd & ->).
    apply fetched_eligible in Hd as [Hin Hcompat].
    exists g, d. auto.
  - destruct (submit_request_not_persisted w data Hn) as (Hcalls & Hrows & _).
    rewrite Hcalls, Hrows, drop_all in Hm. destruct Hm as [Hm|Hm]; inversion Hm.
Qed.

Lemma C8_match_eligibility_witness :
  exists (g : string) (d : Donor),
    sample_data !! "required_blood_group" = Some g
    /\ d ∈ donors sample_world
    /\ donor_id d = match_donor_id (mkMatch 42 4)
    /\ donor_blood_group d ∈ compatible_groups_of g
    /\ match_request_id (mkMatch 42 4) = lastrowid sample_world.
Proof.
  apply (C8_match_eligibility sample_world sample_data (mkMatch 42 4)).
  left. vm_compute. repeat constructor.
Defined.

(** ** One attempt per donor and channel *)

Section Counting.
Context {A : Type} `{EqDecision A}.
Variables (key label : A -> string).

(** A column declared UNIQUE identifies the row. *)
Lemma unique_column_inj (D : list A) (x y : A) :
  NoDup (key <$> D) -> x ∈ D -> y ∈ D -> key x = key y -> x = y.
Proof.
  induction D as [|a D IH]; intros Hnd Hx Hy Hxy; [inversion Hx|].
  rewrite fmap_cons in Hnd. apply NoDup_cons in Hnd as [Ha Hnd].
  apply elem_of_cons in Hx as [->|Hx]; apply elem_of_cons in Hy as [->|Hy].
  - reflexivity.
  - exfalso. apply Ha. rewrite Hxy. apply list_elem_of_fmap. eauto.
  - exfalso. apply Ha. rewrite <- Hxy. apply list_elem_of_fmap. eauto.
  - apply IH; assumption.
Qed.

Lemma count_target (D L : list A) (d : A) :
  NoDup (key <$> D) -> (forall x, x ∈ L -> x ∈ D) -> NoDup L -> d ∈ D ->
  length (filter (fun c : string * string => c.1 = key d)
                 ((fun x => (key x, label x)) <$> L))
  = if decide (d ∈ L) then 1 else 0.
Proof.
  intros HD Hsub HL Hd. induction L as [|x L IH]; [reflexivity|].
  apply NoDup_cons in HL as [Hx HL].
  assert (HxD : x ∈ D) by (apply Hsub; left).
  specialize (IH (fun y Hy => Hsub y (list_elem_of_further _ _ _ Hy)) HL).
  rewrite fmap_cons, filter_cons. cbn [fst].
  destruct (decide (key x = key d)) as [Heq|Hne].
  - apply (unique_column_inj D x d HD HxD Hd) in Heq. subst x.
    rewrite decide_False in IH by exact Hx.
    rewrite decide_True by left. cbn [length]. rewrite IH. reflexivity.
  - rewrite IH. destruct (decide (d ∈ L)) as [HdL|HdL].
    + rewrite decide_True by (right; exact HdL). reflexivity.
    + rewrite decide_False; [reflexivity|].
      intros Hin. apply elem_of_cons in Hin as [->|Hin]; [apply Hne; reflexivity|].
      apply HdL, Hin.
Qed.

End Counting.

Lemma fetched_NoDup (w : World) (g : string) :
  NoDup (donors w) -> NoDup (fetched w g).
Proof.
  intros H. unfold fetched. destruct (get_db_connection _ _ _ _); [|constructor].
  destruct (select_donors_error w); [constructor|]. apply NoDup_filter, H.
Qed.

(** The two tiers split the fetched donors, and the donors called are
    pairwise distinct. *)
Lemma tiers_partition (w : World) (g loc : string) :
  NoDup (donors w) ->
  let near := filter (fun d => is_near loc d) (fetched w g) in
  let far := filter (fun d => ¬ is_near loc d) (fetched w g) in
  near ++ far ≡ₚ fetched w g
  /\ NoDup (near ++ far)
  /\ NoDup (near ++ take 5 far).
Proof.
  intros Hnd near far.
  assert (Hperm : near ++ far ≡ₚ fetched w g) by apply filter_app_complement.
  assert (Hall : NoDup (near ++ far))
    by (rewrite Hperm; apply fetched_NoDup, Hnd).
  repeat split; [exact Hperm | exact Hall |].
  apply NoDup_app in Hall as (Hn & Hdisj & Hf).
  apply NoDup_app. repeat split.
  - exact Hn.
  - intros d Hd Hd'. apply (Hdisj d Hd). eapply take_elem_of, Hd'.
  - eapply sublist_NoDup; [exact Hf | apply sublist_take].
Qed.

(** A fetched far donor past the fifth is not among the donors called. *)
Lemma uncalled_past_fifth (key label : Donor -> string) (w : World)
    (g loc : string) (d : Donor) :
  NoDup (donors w) ->
  NoDup (key <$> donors w) ->
  d ∈ drop 5 (filter (fun d => ¬ is_near loc d) (fetched w g)) ->
  length (filter (fun c : string * string => c.1 = key d)
            ((fun x => (key x, label x)) <$>
               (filter (fun d => is_near loc d) (fetched w g)
                ++ take 5 (filter (fun d => ¬ is_near loc d) (fetched w g)))))
  = 0.
Proof.
  intros Hnd Hkey Hd.
  destruct (tiers_partition w g loc Hnd) as (_ & Hall & Hcalled).
  set (near := filter (fun d => is_near loc d) (fetched w g)) in *.
  set (far := filter (fun d => ¬ is_near loc d) (fetched w g)) in *.
  assert (Hfar : d ∈ far).
  { rewrite <- (take_drop 5 far). apply elem_of_app. right. exact Hd. }
  assert (Hsub : forall x, x ∈ near ++ take 5 far -> x ∈ donors w).
  { intros x Hx. apply elem_of_app in Hx.
    apply (tiers_fetched w g loc), fetched_eligible in Hx. tauto. }
  assert (HdD : d ∈ donors w).
  { apply list_elem_of_filter in Hfar as [_ Hfar].
    apply fetched_eligible in Hfar. tauto. }
  rewrite (count_target key label (donors w) _ d Hkey Hsub Hcalled HdD).
  rewrite decide_False; [reflexivity|].
  intros Hin. apply NoDup_app in Hall as (_ & Hdisj & Hf).
  apply elem_of_app in Hin as [Hin|Hin].
  - exact (Hdisj d Hin Hfar).
  - rewrite <- (take_drop 5 far) in Hf.
    apply NoDup_app in Hf as (_ & Hdisj' & _). exact (Hdisj' d Hin Hd).
Qed.

(** C7. In a run whose request was stored, the donors called are, in this
    order, every near donor and then the first five far donors in fetch
    order, on both channels; the full trace is the near loop's calls
    followed by the far loop's. A far donor past the fifth is never called
    (addresses and phone numbers being unique in [donors]). *)
Theorem C7_processing_order (w : World) (data : gmap string string)
    (g loc : string) (near far : list Donor) :
  persisted w data ->
  data !! "required_blood_group" = Some g ->
  data !! "hospital_location" = Some loc ->
  find_compatible_donors w g loc = Return (near, far) ->
  calls (submit_request w data)
  = concat (near_events w (lastrowid w) <$> near)
    ++ concat (far_events (lastrowid w) <$> take 5 far)
  /\ email_calls (calls (submit_request w data))
     = (email_target <$> near) ++ (email_target <$> take 5 far)
  /\ whatsapp_calls (calls (submit_request w data))
     = (whatsapp_target <$> near) ++ (whatsapp_target <$> take 5 far)
  /\ length (email_calls (calls (submit_request w data)))
     = length near + min 5 (length far)
  /\ (NoDup (donor_email <$> donors w) -> NoDup (donor_phone <$> donors w) ->
      forall d, d ∈ drop 5 far ->
        email_attempts (donor_email d) (calls (submit_request w data)) = 0
        /\ whatsapp_attempts (donor_phone d) (calls (submit_request w data)) = 0).
Proof.
  intros Hp Hg Hloc Hfind.
  apply find_compatible_donors_inv in Hfind as [-> ->].
  destruct (submit_request_run w data g loc Hp Hg Hloc) as [Hcalls _].
  unfold email_attempts, whatsapp_attempts.
  rewrite Hcalls, run_events_email, run_events_whatsapp, !fmap_app.
  repeat split; try reflexivity.
  - rewrite length_app, !length_fmap, length_take. reflexivity.
  - rewrite <- fmap_app. unfold email_target.
    apply (uncalled_past_fifth donor_email donor_name w g loc d); auto.
    eapply NoDup_fmap_1; eassumption.
  - rewrite <- fmap_app. unfold whatsapp_target.
    apply (uncalled_past_fifth donor_phone donor_name w g loc d); auto.
    eapply NoDup_fmap_1; eassumption.
Qed.

Lemma C7_processing_order_witness :
  let near := filter (fun d => is_near "Mumbai" d) (fetched sample_world "A+") in
  let far := filter (fun d => ¬ is_near "Mumbai" d) (fetched sample_world "A+") in
  let run := calls (submit_request sample_world sample_data) in
  run = concat (near_events sample_world 42 <$> near)
        ++ concat (far_events 42 <$> take 5 far)
  /\ email_calls run = (email_target <$> near) ++ (email_target <$> take 5 far)
  /\ whatsapp_calls run = (whatsapp_target <$> near) ++ (whatsapp_target <$> take 5 far)
  /\ length (email_calls run) = length near + min 5 (length far)
  /\ (NoDup (donor_email <$> donors sample_world) ->
      NoDup (donor_phone <$> donors sample_world) ->
      forall d, d ∈ drop 5 far ->
        email_attempts (donor_email d) run = 0
        /\ whatsapp_attempts (donor_phone d) run = 0).
Proof.
  apply (C7_processing_order sample_world sample_data "A+" "Mumbai").
  - unfold persisted. repeat split; try reflexivity. exists sqlite. reflexivity.
  - reflexivity.
  - reflexivity.
  - vm_compute. reflexivity.
Defined.

(** C9. With e-mail addresses and phone numbers unique in [donors], as the
    schema declares them, a stored request's run splits the fetched donors
    into two tiers without a common donor, calls each near donor and each
    of the first five far donors exactly once on each channel, and calls
    nobody else: no donor is tried twice on a channel. *)
Theorem C9_single_attempt (w : World) (data : gmap string string)
    (g loc : string) (near far : list Donor) :
  NoDup (donor_email <$> donors w) ->
  NoDup (donor_phone <$> donors w) ->
  persisted w data ->
  data !! "required_blood_group" = Some g ->
  data !! "hospital_location" = Some loc ->
  find_compatible_donors w g loc = Return (near, far) ->
  near ++ far ≡ₚ fetched w g
  /\ (forall d, d ∈ near -> d ∉ far)
  /\ forall d, d ∈ donors w ->
       email_attempts (donor_email d) (calls (submit_request w data)) <= 1
       /\ whatsapp_attempts (donor_phone d) (calls (submit_request w data)) <= 1
       /\ (d ∈ near ++ take 5 far ->
           email_attempts (donor_email d) (calls (submit_request w data)) = 1
           /\ whatsapp_attempts (donor_phone d) (calls (submit_request w data)) = 1)
       /\ (d ∉ near ++ take 5 far ->
           email_attempts (donor_email d) (calls (submit_request w data)) = 0
           /\ whatsapp_attempts (donor_phone d) (calls (submit_request w data)) = 0).
Proof.
  intros Hemail Hphone Hp Hg Hloc Hfind.
  apply find_compatible_donors_inv in Hfind as [-> ->].
  assert (Hnd : NoDup (donors w)) by (eapply NoDup_fmap_1, Hemail).
  destruct (tiers_partition w g loc Hnd) as (Hperm & Hall & Hcalled).
  split; [exact Hperm|]. split.
  { apply NoDup_app in Hall as (_ & Hdisj & _). exact Hdisj. }
  intros d Hd.
  destruct (submit_request_run w data g loc Hp Hg Hloc) as [Hcalls _].
  unfold email_attempts, whatsapp_attempts.
  rewrite Hcalls, run_events_email, run_events_whatsapp.
  assert (Hsub : forall x,
             x ∈ filter (fun d => is_near loc d) (fetched w g)
                 ++ take 5 (filter (fun d => ¬ is_near loc d) (fetched w g)) ->
             x ∈ donors w).
  { intros x Hx. apply elem_of_app in Hx.
    apply (tiers_fetched w g loc), fetched_eligible in Hx. tauto. }
  unfold email_target, whatsapp_target.
  rewrite (count_target donor_email donor_name (donors w) _ d Hemail Hsub Hcalled Hd).
  rewrite (count_target donor_phone donor_name (donors w) _ d Hphone Hsub Hcalled Hd).
  destruct (decide (d ∈ _)) as [Hin|Hout].
  - split; [lia|]. split; [lia|]. split; [auto|]. intros Hc. contradiction.
  - split; [lia|]. split; [lia|]. split; [|auto]. intros Hc. contradiction.
Qed.

Lemma C9_single_attempt_witness :
  let near := filter (fun d => is_near "Mumbai" d) (fetched sample_world "A+") in
  let far := filter (fun d => ¬ is_near "Mumbai" d) (fetched sample_world "A+") in
  let run := calls (submit_request sample_world sample_data) in
  near ++ far ≡ₚ fetched sample_world "A+"
  /\ (forall d, d ∈ near -> d ∉ far)
  /\ forall d, d ∈ donors sample_world ->
       email_attempts (donor_email d) run <= 1
       /\ whatsapp_attempts (donor_phone d) run <= 1
       /\ (d ∈ near ++ take 5 far ->
           email_attempts (donor_email d) run = 1
           /\ whatsapp_attempts (donor_phone d) run = 1)
       /\ (d ∉ near ++ take 5 far ->
           email_attempts (donor_email d) run = 0
           /\ whatsapp_attempts (donor_phone d) run = 0).
Proof.
  apply (C9_single_attempt sample_world sample_data "A+" "Mumbai").
  - apply (bool_decide_unpack _). vm_compute. exact I.
  - apply (bool_decide_unpack _). vm_compute. exact I.
  - unfold persisted. repeat split; try reflexivity. exists sqlite. reflexivity.
  - reflexivity.
  - reflexivity.
  - vm_compute. reflexivity.
Defined.

(** * Further properties of the code *)

(** ** Cleaning a location *)

Section CleanFacts.
Import Str.

Lemma char_lower_idem (c : ascii) : char_lower (char_lower c) = char_lower c.
Proof. destruct c as [[] [] [] [] [] [] [] []]; reflexivity. Qed.

Lemma lower_idem (s : string) : lower (lower s) = lower s.
Proof.
  induction s as [|c s IH]; simpl; [reflexivity|].
  rewrite char_lower_idem, IH. reflexivity.
Qed.

Lemma lstrip_idem (s : string) : lstrip (lstrip s) = lstrip s.
Proof.
  induction s as [|c s IH]; simpl; [reflexivity|].
  destruct (char_isspace c) eqn:E; [exact IH|]. simpl. rewrite E. reflexivity.
Qed.

Lemma rstrip_cons (c : ascii) (s : string) :
  rstrip (String c s) =
  match rstrip s with
  | EmptyString => if char_isspace c then EmptyString else String c EmptyString
  | r => String c r
  end.
Proof. reflexivity. Qed.

Lemma rstrip_idem (s : string) : rstrip (rstrip s) = rstrip s.
Proof.
  induction s as [|c s IH]; [reflexivity|].
  rewrite rstrip_cons. destruct (rstrip s) as [|a r] eqn:E.
  - destruct (char_isspace c) eqn:Ec; [reflexivity|].
    rewrite rstrip_cons. cbn [rstrip]. rewrite Ec. reflexivity.
  - rewrite rstrip_cons, IH. reflexivity.
Qed.

Lemma lstrip_rstrip (s : string) : lstrip (rstrip s) = rstrip (lstrip s).
Proof.
  induction s as [|c s IH]; [reflexivity|].
  rewrite rstrip_cons. cbn [lstrip]. destruct (char_isspace c) eqn:Ec.
  - rewrite <- IH. destruct (rstrip s) as [|a r]; [reflexivity|].
    cbn [lstrip]. rewrite Ec. reflexivity.
  - rewrite rstrip_cons. destruct (rstrip s) as [|a r]; rewrite ?Ec; cbn [lstrip];
      rewrite Ec; reflexivity.
Qed.

Lemma strip_idem (s : string) : strip (strip s) = strip s.
Proof.
  unfold strip. rewrite lstrip_rstrip, lstrip_idem, rstrip_idem. reflexivity.
Qed.

Lemma normalize_lower (s : string) : normalize (lower s) = normalize s.
Proof. unfold normalize. rewrite strip_lower. unfold normalize. apply lower_idem. Qed.

Lemma normalize_strip (s : string) : normalize (strip s) = normalize s.
Proof. unfold normalize. rewrite strip_idem. reflexivity. Qed.

End CleanFacts.

Lemma distance_normal (a a' b b' : string) :
  normalize a = normalize a' -> normalize b = normalize b' ->
  calculate_location_distance a b = calculate_location_distance a' b'.
Proof. intros Ha Hb. rewrite !distance_unfold, Ha, Hb. reflexivity. Qed.

(** X1. The distance ignores case and surrounding whitespace: lowering or
    trimming either argument leaves it unchanged, and any two spellings of
    a location that clean to the same string are at distance 0 and at the
    same distance from every third location. *)
Theorem X1_distance_ignores_spelling (a a' b : string) :
  calculate_location_distance (Str.lower a) b = calculate_location_distance a b
  /\ calculate_location_distance (Str.strip a) b = calculate_location_distance a b
  /\ calculate_location_distance a (Str.lower b) = calculate_location_distance a b
  /\ calculate_location_distance a (Str.strip b) = calculate_location_distance a b
  /\ (Str.strip (Str.lower a) = Str.strip (Str.lower a') ->
      calculate_location_distance a a' = 0%Z
      /\ calculate_location_distance a b = calculate_location_distance a' b).
Proof.
  repeat split.
  - apply distance_normal; [apply normalize_lower | reflexivity].
  - apply distance_normal; [apply normalize_strip | reflexivity].
  - apply distance_normal; [reflexivity | apply normalize_lower].
  - apply distance_normal; [reflexivity | apply normalize_strip].
  - unfold calculate_location_distance. rewrite H, String.eqb_refl. reflexivity.
  - apply distance_normal; [|reflexivity]. rewrite <- !strip_lower. exact H.
Qed.

Lemma X1_distance_ignores_spelling_witness :
  calculate_location_distance (Str.lower " New Delhi") "delhi"
  = calculate_location_distance " New Delhi" "delhi"
  /\ calculate_location_distance " New Delhi" "NEW DELHI  " = 0%Z
  /\ calculate_location_distance " New Delhi" "delhi"
     = calculate_location_distance "NEW DELHI  " "delhi".
Proof.
  destruct (X1_distance_ignores_spelling " New Delhi" "NEW DELHI  " "delhi")
    as (H1 & _ & _ & _ & H5).
  destruct (H5 eq_refl) as [H6 H7].
  repeat split; assumption.
Defined.

(** ** The compatibility table as a relation *)

Ltac blood_cases H :=
  unfold blood_types in H;
  repeat (apply elem_of_cons in H as [->|H]); [.. | inversion H].

Ltac donor_cases H :=
  unfold can_donate in H;
  match type of H with
  | _ ∈ ?L => let l := eval vm_compute in L in change L with l in H
  end;
  repeat (apply elem_of_cons in H as [->|H]); [.. | inversion H].

Lemma can_donate_typed (d r : string) :
  can_donate d r -> r ∈ blood_types.
Proof.
  intros H. destruct (decide (r ∈ blood_types)) as [Hr|Hr]; [exact Hr|].
  unfold can_donate, compatible_groups_of, dict_get in H.
  rewrite (unknown_blood_group r Hr) in H. inversion H.
Qed.

Lemma can_donate_donor_typed (d r : string) :
  can_donate d r -> d ∈ blood_types.
Proof.
  intros H. pose proof (can_donate_typed d r H) as Hr.
  blood_cases Hr; donor_cases H; unfold blood_types; repeat constructor.
Qed.

(** X2. The table is closed and free of repetitions: whoever may donate
    to a type is one of the 8 types, as is the recipient, no list names a
    type twice, and O- is in the list of every type. *)
Theorem X2_table_closed (d r : string) :
  (can_donate d r -> d ∈ blood_types /\ r ∈ blood_types)
  /\ NoDup (compatible_groups_of r)
  /\ (r ∈ blood_types -> can_donate "O-" r).
Proof.
  split; [|split].
  - intros H. split; [exact (can_donate_donor_typed d r H) | exact (can_donate_typed d r H)].
  - destruct (decide (r ∈ blood_types)) as [Hr|Hr].
    + blood_cases Hr; apply (bool_decide_unpack _); vm_compute; exact I.
    + unfold compatible_groups_of, dict_get. rewrite (unknown_blood_group r Hr).
      constructor.
  - intros Hr. unfold can_donate. blood_cases Hr; vm_compute; repeat constructor.
Qed.

Lemma X2_table_closed_witness :
  "A-" ∈ blood_types /\ "AB-" ∈ blood_types
  /\ NoDup (compatible_groups_of "AB-")
  /\ can_donate "O-" "AB-".
Proof.
  destruct (X2_table_closed "A-" "AB-") as (H1 & H2 & H3).
  assert (Hd : can_donate "A-" "AB-") by (vm_compute; repeat constructor).
  destruct (H1 Hd) as [Ha Hb].
  repeat split; [exact Ha | exact Hb | exact H2 | exact (H3 Hb)].
Defined.

(** X3. Donation by the table is an order on blood types: if [a] may give
    to [b] and [b] to [c] then [a] may give to [c], and two types that may
    give to each other are the same type. *)
Theorem X3_table_order (a b c : string) :
  (can_donate a b -> can_donate b c -> can_donate a c)
  /\ (can_donate a b -> can_donate b a -> a = b).
Proof.
  split.
  - intros Hab Hbc. pose proof (can_donate_typed b c Hbc) as Hc.
    blood_cases Hc; donor_cases Hbc; donor_cases Hab;
      unfold can_donate; vm_compute; repeat constructor.
  - intros Hab Hba. pose proof (can_donate_typed a b Hab) as Hb.
    blood_cases Hb; donor_cases Hab; try reflexivity;
      exfalso; unfold can_donate in Hba;
      apply (bool_decide_pack _) in Hba; vm_compute in Hba; exact Hba.
Qed.

Lemma X3_table_order_witness :
  can_donate "O-" "A-" /\ can_donate "A-" "AB+" /\ can_donate "O-" "AB+".
Proof.
  assert (H1 : can_donate "O-" "A-") by (vm_compute; repeat constructor).
  assert (H2 : can_donate "A-" "AB+") by (vm_compute; repeat constructor).
  repeat split; [exact H1 | exact H2 |].
  exact (proj1 (X3_table_order "O-" "A-" "AB+") H1 H2).
Defined.

(** ** More on the donor matcher *)

Lemma fetched_sublist (w : World) (g : string) : fetched w g `sublist_of` donors w.
Proof.
  unfold fetched. destruct (get_db_connection _ _ _ _); [|apply sublist_nil_l].
  destruct (select_donors_error w); [apply sublist_nil_l | apply sublist_filter].
Qed.

Lemma tiers_bound (w : World) (g loc : string) :
  length (filter (fun d => is_near loc d) (fetched w g))
  + length (filter (fun d => ¬ is_near loc d) (fetched w g))
  = length (fetched w g)
  /\ length (filter (fun d => is_near loc d) (fetched w g))
     + length (filter (fun d => ¬ is_near loc d) (fetched w g))
     <= length (donors w).
Proof.
  assert (Hlen : length (filter (fun d => is_near loc d) (fetched w g))
                 + length (filter (fun d => ¬ is_near loc d) (fetched w g))
                 = length (fetched w g)).
  { rewrite <- length_app. apply Permutation_length, filter_app_complement. }
  split; [exact Hlen|]. rewrite Hlen. apply sublist_length, fetched_sublist.
Qed.

(** X4. Both tiers list donors in the order of the [donors] table (each is
    the table with rows left out), every returned donor is in exactly one
    tier's count, and the two counts add up to the number of fetched donors,
    at most the size of the table. *)
Theorem X4_tiers_keep_order (w : World) (g loc : string) (near far : list Donor) :
  find_compatible_donors w g loc = Return (near, far) ->
  near `sublist_of` donors w
  /\ far `sublist_of` donors w
  /\ length near + length far = length (fetched w g)
  /\ length near + length far <= length (donors w).
Proof.
  intros Hfind. apply find_compatible_donors_inv in Hfind as [-> ->].
  assert (Hlen : length (filter (fun d => is_near loc d) (fetched w g))
                 + length (filter (fun d => ¬ is_near loc d) (fetched w g))
                 = length (fetched w g)).
  { rewrite <- length_app. apply Permutation_length, filter_app_complement. }
  repeat split.
  - etransitivity; [apply sublist_filter | apply fetched_sublist].
  - etransitivity; [apply sublist_filter | apply fetched_sublist].
  - exact Hlen.
  - rewrite Hlen. apply sublist_length, fetched_sublist.
Qed.

Lemma X4_tiers_keep_order_witness :
  let near := filter (fun d => is_near "Mumbai" d) (fetched sample_world "A+") in
  let far := filter (fun d => ¬ is_near "Mumbai" d) (fetched sample_world "A+") in
  near `sublist_of` donors sample_world
  /\ far `sublist_of` donors sample_world
  /\ length near + length far = length (fetched sample_world "A+")
  /\ length near + length far <= length (donors sample_world).
Proof.
  apply (X4_tiers_keep_order sample_world "A+" "Mumbai"). vm_compute. reflexivity.
Defined.

Lemma odd_blood_group_unmatched (w : World) (g loc : string)
    (near far : list Donor) (d : Donor) :
  find_compatible_donors w g loc = Return (near, far) ->
  donor_blood_group d ∉ blood_types ->
  d ∉ near ++ far.
Proof.
  intros Hfind Hodd Hin. apply find_compatible_donors_inv in Hfind as [-> ->].
  apply Hodd.
  assert (Hf : d ∈ fetched w g).
  { apply elem_of_app in Hin as [Hin|Hin];
      apply list_elem_of_filter in Hin; tauto. }
  apply fetched_eligible in Hf as [_ Hc].
  exact (can_donate_donor_typed (donor_blood_group d) g Hc).
Qed.

(** ** Connecting to the database *)

(** X5. [get_db_connection]: a connection is returned whenever SQLite can
    be opened, whatever happens with MySQL; MySQL is the backend only when
    the connector is available, USE_SQLITE is off and the MySQL connection
    succeeds; a failed MySQL connection falls back to SQLite; and the answer
    is [None] only when SQLite fails. *)
Theorem X5_connection_fallback (available use_sqlite : bool)
    (mysql_connect sqlite_connect : option exn) :
  (sqlite_connect = None ->
   is_Some (get_db_connection available use_sqlite mysql_connect sqlite_connect))
  /\ (get_db_connection available use_sqlite mysql_connect sqlite_connect = Some mysql
      <-> available = true /\ use_sqlite = false /\ mysql_connect = None)
  /\ (is_Some mysql_connect ->
      get_db_connection available use_sqlite mysql_connect sqlite_connect
      = get_db_connection false use_sqlite mysql_connect sqlite_connect)
  /\ (get_db_connection available use_sqlite mysql_connect sqlite_connect = None ->
      is_Some sqlite_connect).
Proof.
  unfold get_db_connection.
  destruct available, use_sqlite, mysql_connect as [em|], sqlite_connect as [es|];
    cbn; repeat split; intros; try discriminate; try (destruct_and?; discriminate);
    eauto; try (match goal with H : is_Some None |- _ => destruct H; discriminate end).
Qed.

Lemma X5_connection_fallback_witness :
  is_Some (get_db_connection true false (Some (OtherException "Can't connect")) None)
  /\ get_db_connection true false (Some (OtherException "Can't connect")) None
     = get_db_connection false false (Some (OtherException "Can't connect")) None.
Proof.
  destruct (X5_connection_fallback true false (Some (OtherException "Can't connect")) None)
    as (H1 & _ & H3 & _).
  split; [exact (H1 eq_refl) | apply H3; eexists; reflexivity].
Defined.

(** ** The e-mail channel *)

Lemma send_email_session_configured (user password : string) (srv : SmtpServer)
    (addr name : string) :
  str_truthy user = true -> str_truthy password = true ->
  send_email_session user password srv addr name =
  match first_error srv with
  | None =>
      (true, [SmtpConnect; SmtpStartTls; SmtpLogin; SmtpSend addr; SmtpQuit])
  | Some _ =>
      (false,
       match connect_error srv, starttls_error srv, login_error srv, send_error srv with
       | Some _, _, _, _ => [SmtpConnect]
       | None, Some _, _, _ => [SmtpConnect; SmtpStartTls]
       | None, None, Some _, _ => [SmtpConnect; SmtpStartTls; SmtpLogin]
       | None, None, None, Some _ => [SmtpConnect; SmtpStartTls; SmtpLogin; SmtpSend addr]
       | None, None, None, None =>
           [SmtpConnect; SmtpStartTls; SmtpLogin; SmtpSend addr; SmtpQuit]
       end)
  end.
Proof.
  intros Hu Hp. unfold send_email_session, first_error, smtp_script.
  rewrite Hu, Hp. cbn [negb orb run_steps].
  destruct srv as [[c|] [s|] [l|] [m|] [q|]]; reflexivity.
Qed.

(** X6. Without a sender address or without a password the e-mail channel
    answers False at once: no step of an SMTP session is tried, whatever
    the server would have answered. *)
Theorem X6_unconfigured_mail_is_silent (user password : string) (srv : SmtpServer)
    (addr name : string) :
  user = "" \/ password = "" ->
  send_email_session user password srv addr name = (false, []).
Proof.
  intros [-> | ->]; unfold send_email_session; cbn [str_truthy negb orb];
    rewrite ?orb_true_r; reflexivity.
Qed.

Lemma X6_unconfigured_mail_is_silent_witness :
  send_email_session "alerts@example.org" "" sample_server_ok "asha@example.org" "Asha"
  = (false, []).
Proof.
  apply (X6_unconfigured_mail_is_silent "alerts@example.org" "" sample_server_ok).
  right. reflexivity.
Defined.

(** X7. With credentials set, the channel answers True exactly when all
    five steps of the session succeed, [quit] included. So a session that
    fails only at [quit] has handed the message to the server and still
    answers False; and after a failed login the message is never sent. *)
Theorem X7_mail_answer (user password : string) (srv : SmtpServer)
    (addr name : string) :
  user <> "" -> password <> "" ->
  ((send_email_session user password srv addr name).1 = true
   <-> first_error srv = None)
  /\ (message_accepted srv -> is_Some (quit_error srv) ->
      (send_email_session user password srv addr name).1 = false
      /\ SmtpSend addr ∈ (send_email_session user password srv addr name).2)
  /\ (is_Some (login_error srv) ->
      SmtpSend addr ∉ (send_email_session user password srv addr name).2).
Proof.
  intros Hu Hp.
  assert (Hu' : str_truthy user = true) by (destruct user; [contradiction|reflexivity]).
  assert (Hp' : str_truthy password = true)
    by (destruct password; [contradiction|reflexivity]).
  rewrite (send_email_session_configured user password srv addr name Hu' Hp').
  split; [|split].
  - destruct (first_error srv); cbn; split; intros; congruence.
  - intros (Hc & Hs & Hl & Hm) [e Hq]. unfold first_error.
    rewrite Hc, Hs, Hl, Hm, Hq. cbn. split; [reflexivity|].
    rewrite !elem_of_cons. tauto.
  - intros [e Hl]. unfold first_error. rewrite Hl.
    destruct (connect_error srv), (starttls_error srv); cbn;
      rewrite !elem_of_cons, elem_of_nil; intuition discriminate.
Qed.

Lemma X7_mail_answer_witness :
  (send_email_session "alerts@example.org" "secret" sample_server_quit_fails
     "asha@example.org" "Asha").1 = false
  /\ SmtpSend "asha@example.org"
     ∈ (send_email_session "alerts@example.org" "secret" sample_server_quit_fails
          "asha@example.org" "Asha").2.
Proof.
  assert (Hu : "alerts@example.org" <> "") by discriminate.
  assert (Hp : "secret" <> "") by discriminate.
  destruct (X7_mail_answer "alerts@example.org" "secret" sample_server_quit_fails
              "asha@example.org" "Asha" Hu Hp) as (_ & H2 & _).
  apply H2.
  - unfold message_accepted. repeat split; reflexivity.
  - eexists. reflexivity.
Defined.

(** ** Answers of the request endpoint *)

Lemma missing_field_check (fields : list string) (data : gmap string string) (f : string) :
  f ∈ fields -> data !! f = None ->
  forallb (fun field => bool_decide (is_Some (data !! field))) fields = false.
Proof.
  intros Hf Hnone. induction fields as [|x fields IH]; [inversion Hf|].
  cbn [forallb]. apply elem_of_cons in Hf as [<-|Hf].
  - rewrite Hnone. reflexivity.
  - rewrite (IH Hf). apply andb_false_r.
Qed.

(** X9. A request that lacks one of the five required fields is answered
    400 before anything else happens: no call is made and [matches] is
    left as it was, whatever the state of the world. *)
Theorem X9_missing_field (w : World) (data : gmap string string) (f : string) :
  f ∈ required_fields -> data !! f = None ->
  submit_request w data
  = mkOutcome (Failed 400 "Missing required fields") (matches w) [].
Proof.
  intros Hf Hnone. unfold submit_request.
  rewrite (missing_field_check required_fields data f Hf Hnone). reflexivity.
Qed.

Lemma X9_missing_field_witness :
  submit_request sample_world sample_data_incomplete
  = mkOutcome (Failed 400 "Missing required fields") (matches sample_world) [].
Proof.
  apply (X9_missing_field sample_world sample_data_incomplete "hospital_location").
  - unfold required_fields. repeat constructor.
  - reflexivity.
Defined.

(** X10. Notification problems never fail a submission: the answer is the
    201 one, with the new request's id, exactly when the request was stored
    and the final commit went through. What the mail server answers and
    whether the match inserts are accepted play no part. *)
Theorem X10_answer_created (w : World) (data : gmap string string) :
  (persisted w data /\ commit_matches_error w = None)
  <-> (exists (n : Z) (nc fc : nat),
         answer (submit_request w data) = Created n (lastrowid w) nc fc).
Proof.
  split.
  - intros [Hp Hc].
    destruct (required_fields_present data (proj1 Hp)) as (g & loc & Hg & Hloc).
    destruct (submit_request_run w data g loc Hp Hg Hloc) as [_ Hrun].
    rewrite Hc in Hrun. destruct Hrun as [Hans _]. eauto.
  - intros (n & nc & fc & Hans). eapply created_inv, Hans.
Qed.

(** X11. The numbers of a 201 answer: the notified count lies between 0
    and [nearby_count]; the rows added number at least the notified count
    and at most [nearby_count] plus five, and at most [nearby_count] plus
    [far_count]; the two counts together do not exceed the donor table. *)
Theorem X11_answer_bounds (w : World) (data : gmap string string)
    (n rid : Z) (nc fc : nat) :
  answer (submit_request w data) = Created n rid nc fc ->
  (0 <= n <= Z.of_nat nc)%Z
  /\ (n <= Z.of_nat (length (new_matches w (submit_request w data))))%Z
  /\ length (new_matches w (submit_request w data)) <= nc + min 5 fc
  /\ nc + fc <= length (donors w).
Proof.
  intros Hans.
  destruct (created_inv w data n rid nc fc Hans) as [Hp Hcommit].
  destruct (required_fields_present data (proj1 Hp)) as (g & loc & Hg & Hloc).
  destruct (submit_request_run w data g loc Hp Hg Hloc) as [_ Hrun].
  rewrite Hcommit in Hrun. destruct Hrun as [Hcreated Hrows].
  rewrite Hcreated in Hans. injection Hans as Hn Hrid Hnc Hfc.
  unfold new_matches. rewrite Hrows, drop_app_length. unfold run_rows.
  rewrite length_app, !length_fmap.
  set (near := filter (fun d => is_near loc d) (fetched w g)) in *.
  set (far := filter (fun d => ¬ is_near loc d) (fetched w g)) in *.
  pose proof (length_filter (fun d => near_recorded w (lastrowid w) d) near) as H1.
  pose proof (length_filter (fun d => insert_ok w (lastrowid w) d) (take 5 far)) as H2.
  rewrite length_take in H2.
  destruct (tiers_bound w g loc) as [_ H3]. fold near far in H3.
  subst n nc fc. repeat split; lia.
Qed.

Lemma X11_answer_bounds_witness :
  (0 <= 2 <= Z.of_nat 3)%Z
  /\ (2 <= Z.of_nat (length (new_matches sample_world
                               (submit_request sample_world sample_data))))%Z
  /\ length (new_matches sample_world (submit_request sample_world sample_data))
     <= 3 + min 5 7
  /\ 3 + 7 <= length (donors sample_world).
Proof.
  apply (X11_answer_bounds sample_world sample_data 2 42 3 7).
  vm_compute. reflexivity.
Defined.

(** X12. The endpoint only ever appends to [matches]: after any run,
    successful or not, the table is the old table followed by the rows of
    this run, and a run that does not answer 201 adds none. *)
Theorem X12_matches_append_only (w : World) (data : gmap string string) :
  matches_after (submit_request w data)
  = matches w ++ new_matches w (submit_request w data)
  /\ ((forall (n rid : Z) (nc fc : nat),
         answer (submit_request w data) <> Created n rid nc fc) ->
      matches_after (submit_request w data) = matches w).
Proof.
  unfold new_matches.
  destruct (persisted_dec w data) as [Hp|Hn].
  - destruct (required_fields_present data (proj1 Hp)) as (g & loc & Hg & Hloc).
    destruct (submit_request_run w data g loc Hp Hg Hloc) as [_ Hrun].
    destruct (commit_matches_error w).
    + destruct Hrun as [_ ->]. rewrite drop_all, app_nil_r. auto.
    + destruct Hrun as [Hans ->]. rewrite drop_app_length. split; [reflexivity|].
      intros Hnot. exfalso. eapply Hnot, Hans.
  - destruct (submit_request_not_persisted w data Hn) as (_ & -> & _).
    rewrite drop_all, app_nil_r. auto.
Qed.

Lemma submit_request_commit_failed (w : World) (data : gmap string string) (e : exn) :
  persisted w data ->
  commit_matches_error w = Some e ->
  answer (submit_request w data)
  = match e with
    | OperationalError msg =>
        if Str.contains (Str.lower msg) "locked"
        then Failed 503 "Database is busy. Please try again in a moment."
        else Failed 500 ("Database error: " +:+ msg)
    | OtherException msg => Failed 500 msg
    end.
Proof.
  intros Hp He.
  destruct (required_fields_present data (proj1 Hp)) as (g & loc & Hg & Hloc).
  destruct Hp as (Hf & [ty Hty] & Hi & Hcr).
  unfold submit_request. rewrite Hf, Hty. cbn [negb].
  unfold submit_request_body, mbind, Run_bind, lift, dict_item, get_notified_count,
    mret, Run_ret.
  rewrite Hi, Hcr, Hg, Hloc, find_compatible_donors_spec.
  cbn [execute]. rewrite notify_all_run, He. cbn [execute].
  destruct e as [msg|msg]; [destruct (Str.contains _ _)|]; reflexivity.
Qed.

(** X13. When the final commit fails after the loops have run, the
    endpoint answers an error (503 for an OperationalError whose message
    mentions "locked", 500 otherwise) and no match row is kept, although
    the request itself is stored and every near donor and the first five
    far donors have already been called. *)
Theorem X13_commit_failure_after_notifying (w : World) (data : gmap string string)
    (g loc : string) (near far : list Donor) (e : exn) :
  persisted w data ->
  commit_matches_error w = Some e ->
  data !! "required_blood_group" = Some g ->
  data !! "hospital_location" = Some loc ->
  find_compatible_donors w g loc = Return (near, far) ->
  (exists (st : Z) (msg : string),
      answer (submit_request w data) = Failed st msg
      /\ (st = 503%Z \/ st = 500%Z)
      /\ (st = 503%Z <->
          exists m, e = OperationalError m
                    /\ Str.contains (Str.lower m) "locked" = true))
  /\ matches_after (submit_request w data) = matches w
  /\ email_calls (calls (submit_request w data)) = email_target <$> (near ++ take 5 far).
Proof.
  intros Hp He Hg Hloc Hfind.
  apply find_compatible_donors_inv in Hfind as [-> ->].
  destruct (submit_request_run w data g loc Hp Hg Hloc) as [Hcalls Hrun].
  rewrite He in Hrun. destruct Hrun as [_ Hrows].
  split; [|split; [exact Hrows | rewrite Hcalls; apply run_events_email]].
  rewrite (submit_request_commit_failed w data e Hp He).
  destruct e as [msg|msg]; [destruct (Str.contains (Str.lower msg) "locked") eqn:Hl|].
  - eexists _, _. split; [reflexivity|]. split; [auto|]. split; [eauto|reflexivity].
  - eexists _, _. split; [reflexivity|]. split; [auto|]. split; [discriminate|].
    intros (m & [= <-] & Hm). congruence.
  - eexists _, _. split; [reflexivity|]. split; [auto|]. split; [discriminate|].
    intros (m & Hm & _). discriminate.
Qed.

Lemma X13_commit_failure_after_notifying_witness :
  (exists (st : Z) (msg : string),
      answer (submit_request sample_world_locked sample_data) = Failed st msg
      /\ (st = 503%Z \/ st = 500%Z)
      /\ (st = 503%Z <->
          exists m, OperationalError "database is locked" = OperationalError m
                    /\ Str.contains (Str.lower m) "locked" = true))
  /\ matches_after (submit_request sample_world_locked sample_data)
     = matches sample_world_locked
  /\ email_calls (calls (submit_request sample_world_locked sample_data))
     = email_target <$>
         (filter (fun d => is_near "Mumbai" d) (fetched sample_world_locked "A+")
          ++ take 5 (filter (fun d => ¬ is_near "Mumbai" d)
                       (fetched sample_world_locked "A+"))).
Proof.
  apply (X13_commit_failure_after_notifying sample_world_locked sample_data "A+" "Mumbai").
  - unfold persisted. repeat split; try reflexivity. exists sqlite. reflexivity.
  - reflexivity.
  - reflexivity.
  - reflexivity.
  - vm_compute. reflexivity.
Defined.

Lemma unconfigured_email_ok (w : World) (d : Donor) :
  EMAIL_USER w = "" \/ EMAIL_PASSWORD w = "" -> email_ok w d = false.
Proof.
  intros [H|H]; unfold email_ok, send_email_notification; rewrite H;
    cbn [str_truthy negb orb]; rewrite ?orb_true_r; reflexivity.
Qed.

Lemma filter_none {A : Type} (P : A -> Prop) `{forall x, Decision (P x)} (l : list A) :
  (forall x, ¬ P x) -> filter P l = [].
Proof.
  intros HP. induction l as [|x l IH]; [reflexivity|].
  rewrite filter_cons_False by apply HP. exact IH.
Qed.

(** X14. Without mail credentials a 201 answer always reports 0 notified
    donors and no near donor is recorded; the only rows added are those of
    the first five far donors (those whose insert the store accepted). *)
Theorem X14_unconfigured_mail_records_far_only (w : World) (data : gmap string string)
    (n rid : Z) (nc fc : nat) :
  EMAIL_USER w = "" \/ EMAIL_PASSWORD w = "" ->
  answer (submit_request w data) = Created n rid nc fc ->
  n = 0%Z
  /\ exists (g loc : string) (near far : list Donor),
       data !! "required_blood_group" = Some g
       /\ data !! "hospital_location" = Some loc
       /\ find_compatible_donors w g loc = Return (near, far)
       /\ new_matches w (submit_request w data)
          = match_row rid <$> filter (fun d => insert_ok w rid d) (take 5 far).
Proof.
  intros Hmail Hans.
  destruct (created_inv w data n rid nc fc Hans) as [Hp Hcommit].
  destruct (required_fields_present data (proj1 Hp)) as (g & loc & Hg & Hloc).
  destruct (submit_request_run w data g loc Hp Hg Hloc) as [_ Hrun].
  rewrite Hcommit in Hrun. destruct Hrun as [Hcreated Hrows].
  rewrite Hcreated in Hans. injection Hans as Hn Hrid Hnc Hfc. subst rid.
  assert (Hnone : filter (fun d => near_recorded w (lastrowid w) d)
                    (filter (fun d => is_near loc d) (fetched w g)) = []).
  { apply filter_none. intros d. unfold near_recorded.
    rewrite (unconfigured_email_ok w d Hmail). exact id. }
  split.
  - rewrite <- Hn, Hnone. reflexivity.
  - exists g, loc, (filter (fun d => is_near loc d) (fetched w g)),
      (filter (fun d => ¬ is_near loc d) (fetched w g)).
    repeat split; auto.
    + apply find_compatible_donors_spec.
    + unfold new_matches. rewrite Hrows, drop_app_length. unfold run_rows.
      rewrite Hnone. reflexivity.
Qed.

Lemma X14_unconfigured_mail_records_far_only_witness :
  0%Z = 0%Z
  /\ exists (g loc : string) (near far : list Donor),
       sample_data !! "required_blood_group" = Some g
       /\ sample_data !! "hospital_location" = Some loc
       /\ find_compatible_donors sample_world_no_mail g loc = Return (near, far)
       /\ new_matches sample_world_no_mail (submit_request sample_world_no_mail sample_data)
          = match_row 42 <$> filter (fun d => insert_ok sample_world_no_mail 42 d) (take 5 far).
Proof.
  apply (X14_unconfigured_mail_records_far_only sample_world_no_mail sample_data 0 42 3 7).
  - left. reflexivity.
  - vm_compute. reflexivity.
Defined.

(** ** Donor registration *)

Lemma donor_fields_present (data : gmap string string)
    (name bg email phone loc : string) :
  data !! "name" = Some name -> data !! "blood_group" = Some bg ->
  data !! "email" = Some email -> data !! "phone" = Some phone ->
  data !! "location" = Some loc ->
  forallb (fun field => bool_decide (is_Some (data !! field))) donor_fields = true.
Proof.
  intros H1 H2 H3 H4 H5. unfold donor_fields. cbn [forallb].
  rewrite H1, H2, H3, H4, H5. reflexivity.
Qed.

Lemma donor_fields_inv (data : gmap string string) :
  forallb (fun field => bool_decide (is_Some (data !! field))) donor_fields = true ->
  exists name bg email phone loc : string,
    data !! "name" = Some name /\ data !! "blood_group" = Some bg
    /\ data !! "email" = Some email /\ data !! "phone" = Some phone
    /\ data !! "location" = Some loc.
Proof.
  unfold donor_fields. cbn [forallb]. rewrite !andb_true_iff, !bool_decide_eq_true.
  intros ([n Hn] & [b Hb] & [e He] & [p Hp] & [l Hl] & _).
  exists n, b, e, p, l. auto.
Qed.

(** What a registration with all its fields and a connection comes to. *)
Lemma register_donor_run (ty : db_type) (driver_error commit_error : option exn)
    (new_id : Z) (table : list Donor) (data : gmap string string)
    (name bg email phone loc : string) :
  data !! "name" = Some name -> data !! "blood_group" = Some bg ->
  data !! "email" = Some email -> data !! "phone" = Some phone ->
  data !! "location" = Some loc ->
  register_donor (Some ty) driver_error commit_error new_id table data
  = if bool_decide (driver_error = None
                    /\ (email ∉ donor_email <$> table)
                    /\ (phone ∉ donor_phone <$> table)
                    /\ commit_error = None)
    then (Registered new_id, table ++ [mkDonor new_id name bg email phone loc])
    else ((register_donor (Some ty) driver_error commit_error new_id table data).1, table).
Proof.
  intros H1 H2 H3 H4 H5. unfold register_donor at 1 2.
  rewrite (donor_fields_present data name bg email phone loc H1 H2 H3 H4 H5).
  cbn [negb]. unfold register_donor_body, dict_item, insert_donor.
  rewrite H1, H2, H3, H4, H5. cbn [mbind py_bind].
  destruct driver_error as [e|].
  { rewrite bool_decide_eq_false_2 by (intros (H & _); discriminate).
    cbn [mbind py_bind]. destruct (_ || _); reflexivity. }
  destruct (decide (email ∈ donor_email <$> table)) as [He|He].
  { rewrite (bool_decide_eq_true_2 _ He).
    rewrite bool_decide_eq_false_2 by tauto. reflexivity. }
  rewrite (bool_decide_eq_false_2 _ He).
  destruct (decide (phone ∈ donor_phone <$> table)) as [Hp|Hp].
  { rewrite (bool_decide_eq_true_2 _ Hp).
    rewrite bool_decide_eq_false_2 by tauto. reflexivity. }
  rewrite (bool_decide_eq_false_2 _ Hp). cbn [mbind py_bind].
  destruct commit_error as [e|]; cbn [execute mbind py_bind].
  { rewrite bool_decide_eq_false_2 by (intros (_ & _ & _ & H); discriminate).
    destruct (_ || _); reflexivity. }
  rewrite bool_decide_eq_true_2 by auto. reflexivity.
Qed.

Lemma register_donor_refused (ty : db_type) (driver_error commit_error : option exn)
    (new_id : Z) (table : list Donor) (data : gmap string string)
    (name bg email phone loc : string) :
  data !! "name" = Some name -> data !! "blood_group" = Some bg ->
  data !! "email" = Some email -> data !! "phone" = Some phone ->
  data !! "location" = Some loc ->
  ~ (driver_error = None
     /\ (email ∉ donor_email <$> table)
     /\ (phone ∉ donor_phone <$> table)
     /\ commit_error = None) ->
  exists (st : Z) (msg : string),
    (register_donor (Some ty) driver_error commit_error new_id table data).1
    = Refused st msg.
Proof.
  intros H1 H2 H3 H4 H5 Hnot.
  destruct (register_donor (Some ty) driver_error commit_error new_id table data).1
    as [i|st msg] eqn:Hr; [|eauto].
  exfalso. unfold register_donor in Hr.
  rewrite (donor_fields_present data name bg email phone loc H1 H2 H3 H4 H5) in Hr.
  cbn [negb] in Hr.
  unfold register_donor_body, dict_item, insert_donor in Hr.
  rewrite H1, H2, H3, H4, H5 in Hr. cbn [mbind py_bind] in Hr.
  apply Hnot.
  destruct driver_error as [e|];
    [cbn [mbind py_bind] in Hr; destruct (_ || _); discriminate|].
  destruct (decide (email ∈ donor_email <$> table)) as [He|He];
    [rewrite (bool_decide_eq_true_2 _ He) in Hr;
     cbn [mbind py_bind] in Hr; discriminate|].
  rewrite (bool_decide_eq_false_2 _ He) in Hr.
  destruct (decide (phone ∈ donor_phone <$> table)) as [Hp|Hp];
    [rewrite (bool_decide_eq_true_2 _ Hp) in Hr;
     cbn [mbind py_bind] in Hr; discriminate|].
  rewrite (bool_decide_eq_false_2 _ Hp) in Hr. cbn [mbind py_bind] in Hr.
  destruct commit_error as [e|];
    [cbn [execute mbind py_bind] in Hr; destruct (_ || _); discriminate|].
  auto.
Qed.

(** X15. Registering with an e-mail address or a phone number that a donor
    already has is refused with status 400 and the message "Email or phone
    already registered", and the table stays as it was. *)
Theorem X15_duplicate_contact_refused (ty : db_type) (commit_error : option exn)
    (new_id : Z) (table : list Donor) (data : gmap string string)
    (name bg email phone loc : string) :
  data !! "name" = Some name -> data !! "blood_group" = Some bg ->
  data !! "email" = Some email -> data !! "phone" = Some phone ->
  data !! "location" = Some loc ->
  email ∈ donor_email <$> table \/ phone ∈ donor_phone <$> table ->
  register_donor (Some ty) None commit_error new_id table data
  = (Refused 400 "Email or phone already registered", table).
Proof.
  intros H1 H2 H3 H4 H5 Hdup. unfold register_donor.
  rewrite (donor_fields_present data name bg email phone loc H1 H2 H3 H4 H5).
  cbn [negb]. unfold register_donor_body, dict_item, insert_donor.
  rewrite H1, H2, H3, H4, H5. cbn [mbind py_bind].
  destruct (decide (email ∈ donor_email <$> table)) as [He|He].
  - rewrite (bool_decide_eq_true_2 _ He). reflexivity.
  - rewrite (bool_decide_eq_false_2 _ He).
    destruct Hdup as [Hd|Hd]; [contradiction|].
    rewrite (bool_decide_eq_true_2 _ Hd). reflexivity.
Qed.

Lemma X15_duplicate_contact_refused_witness :
  register_donor (Some sqlite) None None 12 sample_donors sample_registration_duplicate
  = (Refused 400 "Email or phone already registered", sample_donors).
Proof.
  apply (X15_duplicate_contact_refused sqlite None 12 sample_donors
           sample_registration_duplicate "Asha K" "O-" "asha@example.org"
           "9000000099" "Thane"); try reflexivity.
  left. vm_compute. repeat constructor.
Defined.

Lemma NoDup_snoc_fmap {A B : Type} (f : A -> B) (l : list A) (x : A) :
  NoDup (f <$> l) -> f x ∉ f <$> l -> NoDup (f <$> (l ++ [x])).
Proof.
  intros Hnd Hx. rewrite fmap_app. apply NoDup_app. repeat split.
  - exact Hnd.
  - intros y Hy Hy'. apply list_elem_of_singleton in Hy'. subst y. exact (Hx Hy).
  - apply NoDup_singleton.
Qed.

(** X16. A registration either is refused and leaves the table exactly as
    it was, or answers 201 with the new id and appends one row carrying
    the five submitted fields; in that case the e-mail and the phone
    columns stay free of repetitions if they were, and so does the id
    column when the new rowid is fresh. *)
Theorem X16_registration_outcome (db_result : option db_type)
    (driver_error commit_error : option exn) (new_id : Z)
    (table : list Donor) (data : gmap string string) :
  match (register_donor db_result driver_error commit_error new_id table data).1 with
  | Refused _ _ =>
      (register_donor db_result driver_error commit_error new_id table data).2 = table
  | Registered i =>
      i = new_id
      /\ (exists name bg email phone loc : string,
            data !! "name" = Some name /\ data !! "blood_group" = Some bg
            /\ data !! "email" = Some email /\ data !! "phone" = Some phone
            /\ data !! "location" = Some loc
            /\ (register_donor db_result driver_error commit_error new_id table data).2
               = table ++ [mkDonor new_id name bg email phone loc])
      /\ (NoDup (donor_email <$> table) ->
          NoDup (donor_email <$>
                   (register_donor db_result driver_error commit_error new_id table data).2))
      /\ (NoDup (donor_phone <$> table) ->
          NoDup (donor_phone <$>
                   (register_donor db_result driver_error commit_error new_id table data).2))
      /\ (NoDup (donor_id <$> table) -> new_id ∉ donor_id <$> table ->
          NoDup (donor_id <$>
                   (register_donor db_result driver_error commit_error new_id table data).2))
  end.
Proof.
  destruct (forallb (fun field => bool_decide (is_Some (data !! field))) donor_fields)
    eqn:Hf; [|unfold register_donor; rewrite Hf; reflexivity].
  destruct db_result as [ty|]; [|unfold register_donor; rewrite Hf; reflexivity].
  destruct (donor_fields_inv data Hf) as (name & bg & email & phone & loc
                                          & H1 & H2 & H3 & H4 & H5).
  rewrite (register_donor_run ty driver_error commit_error new_id table data
             name bg email phone loc H1 H2 H3 H4 H5).
  destruct (bool_decide _) eqn:Hok.
  - apply bool_decide_eq_true in Hok as (_ & He & Hp & _). cbn [fst snd].
    split; [reflexivity|]. split; [eauto 12|].
    split; [|split].
    + intros Hnd. apply NoDup_snoc_fmap; assumption.
    + intros Hnd. apply NoDup_snoc_fmap; assumption.
    + intros Hnd Hfresh. apply NoDup_snoc_fmap; assumption.
  - cbn [fst snd]. apply bool_decide_eq_false in Hok.
    destruct (register_donor_refused ty driver_error commit_error new_id table data
                name bg email phone loc H1 H2 H3 H4 H5 Hok) as (st & msg & ->).
    reflexivity.
Qed.

Example registration_accepted :
  register_donor (Some sqlite) None None 12 sample_donors sample_registration
  = (Registered 12,
     sample_donors ++ [mkDonor 12 "Leela" "O-" "leela@example.org" "9000000012" "mumbai"]).
Proof. vm_compute. reflexivity. Qed.

Lemma fetched_with_donors (w : World) (table : list Donor) (g : string) :
  donor_store_up w ->
  fetched (with_donors w table) g
  = filter (fun d => donor_blood_group d ∈ compatible_groups_of g) table.
Proof.
  intros [[ty Hty] Hsel]. unfold fetched. cbn [with_donors MYSQL_AVAILABLE USE_SQLITE
    mysql_connect_donors sqlite_connect_donors select_donors_error donors].
  rewrite Hty, Hsel. reflexivity.
Qed.

(** X17. Registration and matching fit together: over a reachable store, a
    donor just registered is returned by the matcher for a request exactly
    when the submitted blood group is in the compatible list of the
    requested one, in the near tier when the submitted location is at
    distance 0 or 1 from the hospital's and in the far tier otherwise. *)
Theorem X17_registered_donor_is_matched (w : World) (ty : db_type) (new_id : Z)
    (data : gmap string string) (name bg email phone loc : string)
    (g hospital_location : string) (near far : list Donor) :
  donor_store_up w ->
  data !! "name" = Some name -> data !! "blood_group" = Some bg ->
  data !! "email" = Some email -> data !! "phone" = Some phone ->
  data !! "location" = Some loc ->
  (register_donor (Some ty) None None new_id (donors w) data).1 = Registered new_id ->
  find_compatible_donors
    (with_donors w (register_donor (Some ty) None None new_id (donors w) data).2)
    g hospital_location = Return (near, far) ->
  (mkDonor new_id name bg email phone loc ∈ near
   <-> can_donate bg g /\ (calculate_location_distance loc hospital_location <= 1)%Z)
  /\ (mkDonor new_id name bg email phone loc ∈ far
      <-> can_donate bg g /\ calculate_location_distance loc hospital_location = 2%Z).
Proof.
  intros Hup H1 H2 H3 H4 H5 Hreg Hfind.
  rewrite (register_donor_run ty None None new_id (donors w) data
             name bg email phone loc H1 H2 H3 H4 H5) in Hreg, Hfind.
  destruct (bool_decide _) eqn:Hok.
  2:{ cbn [fst] in Hreg. apply bool_decide_eq_false in Hok.
      destruct (register_donor_refused ty None None new_id (donors w) data
                  name bg email phone loc H1 H2 H3 H4 H5 Hok) as (st & msg & Href).
      congruence. }
  cbn [snd] in Hfind.
  apply find_compatible_donors_inv in Hfind as [-> ->].
  rewrite (fetched_with_donors w _ g Hup), !list_elem_of_filter, elem_of_app.
  unfold is_near, can_donate. cbn [donor_location donor_blood_group].
  assert (Hin : mkDonor new_id name bg email phone loc
                ∈ donors w ∨ mkDonor new_id name bg email phone loc
                             ∈ [mkDonor new_id name bg email phone loc])
    by (right; apply list_elem_of_here).
  assert (Hrange : calculate_location_distance loc hospital_location ∈ [0%Z; 1%Z; 2%Z]).
  { destruct (distance_cases loc hospital_location) as [[-> _]|[[-> _]|[-> _]]];
      repeat constructor. }
  rewrite !elem_of_cons, elem_of_nil in Hrange.
  split; split.
  - intros (Hn & Hc & _). split; [exact Hc|]. apply Z.leb_le. apply Is_true_true, Hn.
  - intros [Hc Hd]. repeat split; auto. apply Is_true_true, Z.leb_le, Hd.
  - intros (Hn & Hc & _). split; [exact Hc|].
    destruct (calculate_location_distance loc hospital_location <=? 1)%Z eqn:E;
      [exfalso; apply Hn; exact I|]. apply Z.leb_gt in E. lia.
  - intros [Hc Hd]. repeat split; auto. rewrite Hd. exact id.
Qed.

Lemma X17_registered_donor_is_matched_witness :
  mkDonor 12 "Leela" "O-" "leela@example.org" "9000000012" "mumbai"
  ∈ filter (fun d => is_near "Mumbai" d)
      (fetched (with_donors sample_world
                  (register_donor (Some sqlite) None None 12
                     (donors sample_world) sample_registration).2) "A+")
  <-> can_donate "O-" "A+" /\ (calculate_location_distance "mumbai" "Mumbai" <= 1)%Z.
Proof.
  apply (X17_registered_donor_is_matched sample_world sqlite 12 sample_registration
           "Leela" "O-" "leela@example.org" "9000000012" "mumbai" "A+" "Mumbai"
           (filter (fun d => is_near "Mumbai" d)
              (fetched (with_donors sample_world
                          (register_donor (Some sqlite) None None 12
                             (donors sample_world) sample_registration).2) "A+"))
           (filter (fun d => ¬ is_near "Mumbai" d)
              (fetched (with_donors sample_world
                          (register_donor (Some sqlite) None None 12
                             (donors sample_world) sample_registration).2) "A+")));
    try reflexivity.
  split; [exists sqlite; reflexivity | reflexivity].
Defined.

(** X18. The blood group submitted at registration is not checked: with
    all fields given, a working store and fresh contact details the
    registration is accepted whatever the blood group string is; if that
    string is not one of the 8 types, the new donor is never returned by
    the matcher, for no request. *)
Theorem X18_blood_group_unchecked (ty : db_type) (new_id : Z) (table : list Donor)
    (data : gmap string string) (name bg email phone loc : string) :
  data !! "name" = Some name -> data !! "blood_group" = Some bg ->
  data !! "email" = Some email -> data !! "phone" = Some phone ->
  data !! "location" = Some loc ->
  email ∉ donor_email <$> table -> phone ∉ donor_phone <$> table ->
  register_donor (Some ty) None None new_id table data
  = (Registered new_id, table ++ [mkDonor new_id name bg email phone loc])
  /\ (bg ∉ blood_types ->
      forall (w : World) (g hospital_location : string) (near far : list Donor),
        find_compatible_donors w g hospital_location = Return (near, far) ->
        mkDonor new_id name bg email phone loc ∉ near ++ far).
Proof.
  intros H1 H2 H3 H4 H5 He Hp. split.
  - rewrite (register_donor_run ty None None new_id table data
               name bg email phone loc H1 H2 H3 H4 H5).
    rewrite bool_decide_eq_true_2 by auto. reflexivity.
  - intros Hodd w g hl near far Hfind.
    apply (odd_blood_group_unmatched w g hl near far _ Hfind). exact Hodd.
Qed.

Lemma X18_blood_group_unchecked_witness :
  register_donor (Some sqlite) None None 12 sample_donors sample_registration_odd
  = (Registered 12,
     sample_donors ++ [mkDonor 12 "Mohan" "o-" "mohan@example.org" "9000000013" "Mumbai"])
  /\ ("o-" ∉ blood_types ->
      forall (w : World) (g hospital_location : string) (near far : list Donor),
        find_compatible_donors w g hospital_location = Return (near, far) ->
        mkDonor 12 "Mohan" "o-" "mohan@example.org" "9000000013" "Mumbai" ∉ near ++ far).
Proof.
  apply (X18_blood_group_unchecked sqlite 12 sample_donors sample_registration_odd
           "Mohan" "o-" "mohan@example.org" "9000000013" "Mumbai"); try reflexivity.
  - apply (bool_decide_unpack _). vm_compute. exact I.
  - apply (bool_decide_unpack _). vm_compute. exact I.
Defined.

(** ** The donor match page *)

Lemma donor_match_page_found (w : World) (ty : db_type)
    (blood_requests : gmap Z (string * string)) (rid : Z) (g loc : string) :
  rid <> 0%Z ->
  blood_requests !! rid = Some (g, loc) ->
  donor_match_page w (Some ty) None blood_requests (Some rid)
  = DonorMatch (length (filter (fun d => is_near loc d) (fetched w g)))
               (length (filter (fun d => ¬ is_near loc d) (fetched w g))).
Proof.
  intros Hrid Hrow. unfold donor_match_page.
  rewrite (proj2 (Z.eqb_neq rid 0) Hrid), Hrow.
  cbn [execute mbind py_bind]. rewrite find_compatible_donors_spec. reflexivity.
Qed.

(** X19. The match page agrees with the submission: for a request that
    was answered 201 and whose row holds the submitted blood group and
    location, the page shows the [nearby_count] and [far_count] of that
    answer (as long as the donor table and the store are as they were). In
    particular the page counts every far donor, not only the five called. *)
Theorem X19_match_page_agrees (w : World) (data : gmap string string)
    (n rid : Z) (nc fc : nat) (g loc : string) (ty : db_type)
    (blood_requests : gmap Z (string * string)) :
  answer (submit_request w data) = Created n rid nc fc ->
  data !! "required_blood_group" = Some g ->
  data !! "hospital_location" = Some loc ->
  rid <> 0%Z ->
  blood_requests !! rid = Some (g, loc) ->
  donor_match_page w (Some ty) None blood_requests (Some rid) = DonorMatch nc fc.
Proof.
  intros Hans Hg Hloc Hrid Hrow.
  destruct (created_inv w data n rid nc fc Hans) as [Hp Hcommit].
  destruct (submit_request_run w data g loc Hp Hg Hloc) as [_ Hrun].
  rewrite Hcommit in Hrun. destruct Hrun as [Hcreated _].
  rewrite Hcreated in Hans. injection Hans as _ _ <- <-.
  apply donor_match_page_found; assumption.
Qed.

Lemma X19_match_page_agrees_witness :
  donor_match_page sample_world (Some sqlite) None
    (<[42%Z := ("A+", "Mumbai")]> ∅) (Some 42%Z)
  = DonorMatch 3 7.
Proof.
  apply (X19_match_page_agrees sample_world sample_data 2 42 3 7 "A+" "Mumbai").
  - vm_compute. reflexivity.
  - reflexivity.
  - reflexivity.
  - discriminate.
  - reflexivity.
Defined.

(** X20. Edge cases of the match page. Without a request id, or with the
    id 0, it redirects to the main page before the store is consulted.
    With any other id it shows two zeros when the connection or the lookup
    fails, also for an id that does not exist; with a working store an
    unknown id redirects, and a known one shows counts that add up to the
    number of donors fetched for its blood group. *)
Theorem X20_match_page_edges (w : World) (db_result : option db_type)
    (select_request_error : option exn)
    (blood_requests : gmap Z (string * string)) (rid : Z) :
  donor_match_page w db_result select_request_error blood_requests None = RedirectMain
  /\ donor_match_page w db_result select_request_error blood_requests (Some 0%Z)
     = RedirectMain
  /\ (rid <> 0%Z ->
      (db_result = None \/ is_Some select_request_error ->
       donor_match_page w db_result select_request_error blood_requests (Some rid)
       = DonorMatch 0 0)
      /\ (is_Some db_result -> select_request_error = None ->
          match blood_requests !! rid with
          | None =>
              donor_match_page w db_result select_request_error blood_requests (Some rid)
              = RedirectMain
          | Some (g, loc) =>
              exists nc fc : nat,
                donor_match_page w db_result select_request_error blood_requests (Some rid)
                = DonorMatch nc fc
                /\ nc + fc = length (fetched w g)
          end)).
Proof.
  split; [reflexivity|]. split; [reflexivity|].
  intros Hrid. split.
  - intros Hdown. unfold donor_match_page. rewrite (proj2 (Z.eqb_neq rid 0) Hrid).
    destruct Hdown as [-> | [e ->]]; [reflexivity|].
    destruct db_result; reflexivity.
  - intros [ty ->] ->. destruct (blood_requests !! rid) as [[g loc]|] eqn:Hrow.
    + rewrite (donor_match_page_found w ty blood_requests rid g loc Hrid Hrow).
      eexists _, _. split; [reflexivity|]. apply (tiers_bound w g loc).
    + unfold donor_match_page. rewrite (proj2 (Z.eqb_neq rid 0) Hrid), Hrow.
      reflexivity.
Qed.

Lemma X20_match_page_edges_witness :
  donor_match_page sample_world_down None None ∅ (Some 7%Z) = DonorMatch 0 0.
Proof.
  destruct (X20_match_page_edges sample_world_down None None ∅ 7) as (_ & _ & H).
  destruct H as [H _]; [discriminate|]. apply H. left. reflexivity.
Defined.

(** ** Independence of the donors in one run *)

(** X21. What a 201 run records, failures included: a near donor is
    recorded exactly when its e-mail was reported sent and its insert was
    accepted, a far donor among the first five exactly when its insert was
    accepted, each on its own account: a refused insert or a failed e-mail
    costs that donor's row and nothing else. The notified count is the
    number of near rows. *)
Theorem X21_rows_per_donor (w : World) (data : gmap string string)
    (n rid : Z) (nc fc : nat) :
  answer (submit_request w data) = Created n rid nc fc ->
  exists (g loc : string) (near far : list Donor),
    data !! "required_blood_group" = Some g
    /\ data !! "hospital_location" = Some loc
    /\ find_compatible_donors w g loc = Return (near, far)
    /\ new_matches w (submit_request w data)
       = (match_row rid <$> filter (fun d => email_ok w d && insert_ok w rid d) near)
         ++ (match_row rid <$> filter (fun d => insert_ok w rid d) (take 5 far))
    /\ n = Z.of_nat (length (filter (fun d => email_ok w d && insert_ok w rid d) near)).
Proof.
  intros Hans.
  destruct (created_inv w data n rid nc fc Hans) as [Hp Hcommit].
  destruct (required_fields_present data (proj1 Hp)) as (g & loc & Hg & Hloc).
  destruct (submit_request_run w data g loc Hp Hg Hloc) as [_ Hrun].
  rewrite Hcommit in Hrun. destruct Hrun as [Hcreated Hrows].
  rewrite Hcreated in Hans. injection Hans as Hn Hrid Hnc Hfc. subst rid.
  exists g, loc, (filter (fun d => is_near loc d) (fetched w g)),
    (filter (fun d => ¬ is_near loc d) (fetched w g)).
  repeat split; auto.
  - apply find_compatible_donors_spec.
  - unfold new_matches. rewrite Hrows, drop_app_length. reflexivity.
Qed.

Lemma X21_rows_per_donor_witness :
  exists (g loc : string) (near far : list Donor),
    sample_data !! "required_blood_group" = Some g
    /\ sample_data !! "hospital_location" = Some loc
    /\ find_compatible_donors sample_world_busy g loc = Return (near, far)
    /\ new_matches sample_world_busy (submit_request sample_world_busy sample_data)
       = (match_row 42 <$>
            filter (fun d => email_ok sample_world_busy d
                             && insert_ok sample_world_busy 42 d) near)
         ++ (match_row 42 <$>
               filter (fun d => insert_ok sample_world_busy 42 d) (take 5 far))
    /\ 2%Z = Z.of_nat (length (filter (fun d => email_ok sample_world_busy d
                                                && insert_ok sample_world_busy 42 d) near)).
Proof.
  apply (X21_rows_per_donor sample_world_busy sample_data 2 42 3 7).
  vm_compute. reflexivity.
Defined.

Lemma persisted_with_channel_answers (w : World) (data : gmap string string)
    (smtp : string -> option exn) (ins : Z -> Z -> option exn) :
  persisted (with_channel_answers w smtp ins) data <-> persisted w data.
Proof. unfold persisted. reflexivity. Qed.

(** X22. The donors called in a run do not depend on how the calls go: with
    any other answers of the mail server and any other outcomes of the
    match inserts, the same donors are called, in the same order, on both
    channels. No failure for one donor keeps a later donor from being
    called. *)
Theorem X22_calls_independent_of_failures (w : World) (data : gmap string string)
    (smtp : string -> option exn) (ins : Z -> Z -> option exn) :
  email_calls (calls (submit_request (with_channel_answers w smtp ins) data))
  = email_calls (calls (submit_request w data))
  /\ whatsapp_calls (calls (submit_request (with_channel_answers w smtp ins) data))
     = whatsapp_calls (calls (submit_request w data)).
Proof.
  destruct (persisted_dec w data) as [Hp|Hn].
  - destruct (required_fields_present data (proj1 Hp)) as (g & loc & Hg & Hloc).
    pose proof (proj2 (persisted_with_channel_answers w data smtp ins) Hp) as Hp'.
    destruct (submit_request_run w data g loc Hp Hg Hloc) as [-> _].
    destruct (submit_request_run _ data g loc Hp' Hg Hloc) as [-> _].
    rewrite !run_events_email, !run_events_whatsapp. split; reflexivity.
  - assert (Hn' : ~ persisted (with_channel_answers w smtp ins) data)
      by (rewrite persisted_with_channel_answers; exact Hn).
    destruct (submit_request_not_persisted w data Hn) as (-> & _).
    destruct (submit_request_not_persisted _ data Hn') as (-> & _).
    split; reflexivity.
Qed.
